(** * scraper.py: the fetch / extract / translate pipeline, embedded in Rocq

    The development follows [src/scraper.py] function by function.

    - Python [str] values are sequences of Unicode code points: [str] is
      [list N], so that [str.strip] can be given its real (Unicode)
      whitespace set and the reminder marker its real code points.
    - Python [int] values are [Z]; the delays handed to [time.sleep] are
      rationals ([Q]); [time.sleep] raises [ValueError] on a negative one.
    - The outside world (HTTP transport, translation backend, clock, file
      system) is a state: two call counters and the chronological trace of
      the effects performed so far.  What the transport and the translation
      backend answer to their n-th call is given by two oracles, which the
      theorems quantify over.  Creating the output directory, building the
      translator object and writing a file are taken to succeed.
    - [raise RuntimeError(...)] is the [RuntimeError] constructor of
      [Result], a [ValueError] raised by a library call is its [ValueError]
      constructor; effects performed before an exception stay in the world.
    - The markup parser, [urljoin] and [os.path.join] are library code and
      are parameters of the development; the parse tree they work on is the
      [node] type below.
    - [print] calls are a non-authoritative side channel and are left out,
      except the banner printed at the head of every chapter iteration,
      which is kept as the [EvChapter] event. *)

From Stdlib Require Import String Ascii DecimalString.
From Stdlib Require DecimalN.
From Stdlib Require Import List ZArith NArith QArith Bool Lia.
Import ListNotations.

#[local] Set Warnings "-register-all".
#[local] Open Scope Z_scope.

(* ===================================================================== *)
(** ** Python strings *)
(* ===================================================================== *)

Module PyStr.

Definition char := N.
Definition str := list char.

(** An ASCII literal as a Python string. *)
Definition py (s : string) : str :=
  List.map N_of_ascii (list_ascii_of_string s).

Definition eqb (a b : str) : bool :=
  if list_eq_dec N.eq_dec a b then true else false.

(** [c.isspace()] for a one-character string: the code points that
    [str.strip()] removes. *)
Definition isspace (c : char) : bool :=
  ((9 <=? c) && (c <=? 13) || (28 <=? c) && (c <=? 32)
   || (c =? 133) || (c =? 160) || (c =? 5760)
   || (8192 <=? c) && (c <=? 8202)
   || (c =? 8232) || (c =? 8233) || (c =? 8239) || (c =? 8287)
   || (c =? 12288))%N.

Fixpoint lstrip (s : str) : str :=
  match s with
  | [] => []
  | c :: r => if isspace c then lstrip r else s
  end.

Definition rstrip (s : str) : str := rev (lstrip (rev s)).

(** [s.strip()] *)
Definition strip (s : str) : str := rstrip (lstrip s).

Definition newline : char := 10%N.

(** [s.split("\n")]: never the empty list; [""] splits to [[""]]. *)
Fixpoint split_nl (s : str) : list str :=
  match s with
  | [] => [[]]
  | c :: r =>
      if (c =? newline)%N then [] :: split_nl r
      else match split_nl r with
           | [] => [[c]]
           | l :: ls => (c :: l) :: ls
           end
  end.

(** [sep.join(parts)] *)
Fixpoint join (sep : str) (parts : list str) : str :=
  match parts with
  | [] => []
  | [p] => p
  | p :: ps => p ++ sep ++ join sep ps
  end.

Fixpoint startswith (s prefix : str) : bool :=
  match prefix, s with
  | [], _ => true
  | _ :: _, [] => false
  | p :: ps, c :: cs => (p =? c)%N && startswith cs ps
  end.

(** [sub in s] *)
Fixpoint contains (sub s : str) : bool :=
  startswith s sub ||
  match s with
  | [] => false
  | _ :: r => contains sub r
  end.

(** [s.replace(ch, new)] for a one-character [ch]. *)
Definition replace (ch : char) (new : str) (s : str) : str :=
  flat_map (fun c => if (c =? ch)%N then new else [c]) s.

(** Python truthiness of a string. *)
Definition truthy (s : str) : bool :=
  match s with [] => false | _ => true end.

(** [format(z, "04d")]: decimal, zero-padded to width 4, the sign first
    and counted in the width. *)
Definition digits (n : N) : str :=
  py (NilZero.string_of_uint (N.to_uint n)).

Definition zfill (width : nat) (d : str) : str :=
  repeat 48%N (width - length d) ++ d.

Definition format_04d (z : Z) : str :=
  if z <? 0 then 45%N :: zfill 3 (digits (Z.abs_N z))
  else zfill 4 (digits (Z.to_N z)).

End PyStr.
Import PyStr.

(* ===================================================================== *)
(** ** The world: effects, oracles, and the monad *)
(* ===================================================================== *)

Definition Headers := list (str * str).

(** What [requests.get] can do: answer with a status code and a body,
    raise a [requests.RequestException], or raise a [ValueError] (what it
    does, before sending anything, when the timeout is not positive), which
    is not a [RequestException]. *)
Inductive GetOutcome :=
| Response (status_code : Z) (text : str)
| RequestException
| GetValueError (msg : str).

(** [GoogleTranslator(source=..., target=...)] *)
Record Translator := GoogleTranslator { source : str; target : str }.

Inductive Event :=
| EvMakedirs (path : str)
| EvGet (url : str) (headers : Headers) (timeout : Z)
| EvSleep (seconds : Q)
| EvChapter (idx : Z) (title url : str)
| EvTranslate (line : str)
| EvWrite (path : str) (content : str).

Record World := mkWorld {
  gets : nat;            (* GET requests issued so far *)
  translations : nat;    (* translation requests issued so far *)
  trace : list Event     (* every effect so far, oldest first *)
}.

Inductive Result (A : Type) :=
| Ok (a : A)
| RuntimeError (msg : str)
| ValueError (msg : str).
Arguments Ok {A} a.
Arguments RuntimeError {A} msg.
Arguments ValueError {A} msg.

Definition M (A : Type) := World -> Result A * World.

Definition ret {A} (a : A) : M A := fun w => (Ok a, w).

Definition bind {A B} (m : M A) (k : A -> M B) : M B :=
  fun w => match m w with
           | (Ok a, w') => k a w'
           | (RuntimeError e, w') => (RuntimeError e, w')
           | (ValueError e, w') => (ValueError e, w')
           end.

Definition raise {A} (msg : str) : M A := fun w => (RuntimeError msg, w).

Definition raise_value_error {A} (msg : str) : M A :=
  fun w => (ValueError msg, w).

Declare Scope py_scope.
Delimit Scope py_scope with py.
Notation "x <- m ;; k" := (bind m (fun x => k))
  (at level 61, m at next level, right associativity) : py_scope.
Notation "m ;; k" := (bind m (fun _ => k))
  (at level 61, right associativity) : py_scope.
#[local] Open Scope py_scope.

Definition emit (e : Event) : M unit :=
  fun w => (Ok tt, mkWorld (gets w) (translations w) (trace w ++ [e])).

(** [time.sleep(seconds)]: a negative duration is refused with a
    [ValueError], before any waiting. *)
Definition time_sleep (seconds : Q) : M unit :=
  if Qle_bool 0 seconds then emit (EvSleep seconds)
  else raise_value_error (py "sleep length must be non-negative").

(** Projections of a trace. *)
Definition is_get (e : Event) : bool :=
  match e with EvGet _ _ _ => true | _ => false end.
Definition is_write (e : Event) : bool :=
  match e with EvWrite _ _ => true | _ => false end.
Definition is_chapter (e : Event) : bool :=
  match e with EvChapter _ _ _ => true | _ => false end.

(* ===================================================================== *)
(** ** Parse trees (the part of BeautifulSoup the scraper relies on) *)
(* ===================================================================== *)

Inductive node :=
| NavigableString (s : str)
| Comment (s : str)
| Tag (name : str) (attrs : list (str * str)) (contents : list node).

(** [tag.descendants]: every node below [n], in document order. *)
Fixpoint descendants (n : node) : list node :=
  match n with
  | Tag _ _ contents => flat_map (fun c => c :: descendants c) contents
  | _ => []
  end.

(** The descendants of the document root, whose contents are [soup]. *)
Definition soup_descendants (soup : list node) : list node :=
  flat_map (fun c => c :: descendants c) soup.

(** [attrs.get(key)] *)
Fixpoint attrs_get (key : str) (attrs : list (str * str)) : option str :=
  match attrs with
  | [] => None
  | (k, v) :: rest => if eqb k key then Some v else attrs_get key rest
  end.

(** [tag.get(key)] *)
Definition tag_get (key : str) (n : node) : option str :=
  match n with
  | Tag _ attrs _ => attrs_get key attrs
  | _ => None
  end.

Definition is_tag_named (names : list str) (n : node) : bool :=
  match n with
  | Tag name _ _ => existsb (eqb name) names
  | _ => false
  end.

Definition has_id (id : str) (n : node) : bool :=
  match n with
  | Tag _ attrs _ =>
      match attrs_get (py "id") attrs with
      | Some v => eqb v id
      | None => false
      end
  | _ => false
  end.

(** [tag.find_all(names)] *)
Definition find_all (names : list str) (n : node) : list node :=
  filter (is_tag_named names) (descendants n).

(** The strings [get_text] joins: the text nodes below [n] in document
    order (comments are not text); with [strip], each one stripped, and
    dropped when nothing is left. *)
Fixpoint all_strings_of (strip_ : bool) (ds : list node) : list str :=
  match ds with
  | [] => []
  | NavigableString s :: rest =>
      if strip_ then
        let s' := strip s in
        if truthy s' then s' :: all_strings_of strip_ rest
        else all_strings_of strip_ rest
      else s :: all_strings_of strip_ rest
  | _ :: rest => all_strings_of strip_ rest
  end.

(** [tag.get_text(separator, strip=strip_)] *)
Definition get_text (separator : str) (strip_ : bool) (n : node) : str :=
  join separator (all_strings_of strip_ (descendants n)).

(* ===================================================================== *)
(** ** The pure helpers of scraper.py *)
(* ===================================================================== *)

(** [{"title": ..., "url": ...}] *)
Record Chapter := mkChapter { title : str; url : str }.

Definition opt_truthy (o : option str) : bool :=
  match o with Some s => truthy s | None => false end.

(** The characters of the raw literal bound to [invalid], in order:
    backslash (twice, the literal being raw), slash, colon, star, question
    mark, double quote, less-than, greater-than, vertical bar. *)
Definition invalid : str :=
  [92; 92; 47; 58; 42; 63; 34; 60; 62; 124]%N.

Definition underscore : str := py "_".

Definition sanitize_filename (name : str) : str :=
  let name := fold_left (fun name ch => replace ch underscore name) invalid name in
  let stripped := strip name in
  if truthy stripped then stripped else py "chapter".

(** The site reminder that is dropped from chapter texts. *)
Definition reminder : str :=
  [35531; 35352; 20303; 26412; 31449; 22495; 21517]%N.

(** The [style=lambda v: ...] filter of [soup.find("div", ...)]. *)
Definition is_content_div (n : node) : bool :=
  is_tag_named [py "div"] n &&
  match tag_get (py "style") n with
  | Some v => truthy v && contains (py "font-size: 20px") v
              && contains (py "line-height: 30px") v
  | None => false
  end.

(** The loop over [content_div.find_all(["p", "br"])]. *)
Fixpoint collect_paragraphs (elems : list node) : list str :=
  match elems with
  | [] => []
  | elem :: rest =>
      let text := get_text [] true elem in
      if truthy text then text :: collect_paragraphs rest
      else collect_paragraphs rest
  end.

Definition primary_paragraphs (content_div : node) : list str :=
  collect_paragraphs (find_all [py "p"; py "br"] content_div).

(** The fallback: the raw text, split on newlines, blank lines dropped. *)
Definition fallback_paragraphs (content_div : node) : list str :=
  let raw := get_text [newline] true content_div in
  filter (fun line => truthy (strip line)) (split_nl raw).

Definition paragraphs_of (content_div : node) : list str :=
  match primary_paragraphs content_div with
  | [] => fallback_paragraphs content_div
  | paragraphs => paragraphs
  end.

Definition clean (paragraphs : list str) : list str :=
  filter (fun line => negb (contains reminder line)) paragraphs.

(** [extract_chapter_text] once the page is parsed. *)
Definition extract_from_soup (soup : list node) : Result str :=
  match find is_content_div (soup_descendants soup) with
  | None =>
      RuntimeError
        (py "Could not find chapter text container. Structure may have changed.")
  | Some content_div => Ok (join [newline] (clean (paragraphs_of content_div)))
  end.

(** [l[start:]] *)
Definition slice_from {A} (start : Z) (l : list A) : list A :=
  if start <? 0
  then skipn (Z.to_nat (Z.max 0 (Z.of_nat (length l) + start))) l
  else skipn (Z.to_nat start) l.

(* ===================================================================== *)
(** ** The effectful functions of scraper.py *)
(* ===================================================================== *)

Section Pipeline.

(** The answer of the transport to the n-th GET request of the run. *)
Variable http : nat -> str -> Headers -> Z -> GetOutcome.

(** The answer of the backend to the n-th translation request of the run:
    [None] when [translator.translate] raises. *)
Variable backend : nat -> Translator -> str -> option str.

(** [BeautifulSoup(markup, "lxml")]: the contents of the document root. *)
Variable BeautifulSoup : str -> list node.

(** [urllib.parse.urljoin] and [os.path.join]. *)
Variable urljoin : str -> str -> str.
Variable os_path_join : str -> str -> str.

(** [requests.get(url, headers=headers, timeout=timeout)] *)
Definition requests_get (url : str) (headers : Headers) (timeout : Z)
  : World -> GetOutcome * World :=
  fun w => (http (gets w) url headers timeout,
            mkWorld (S (gets w)) (translations w)
                    (trace w ++ [EvGet url headers timeout])).

(** [translator.translate(line)] *)
Definition translator_translate (translator : Translator) (line : str)
  : World -> option str * World :=
  fun w => (backend (translations w) translator line,
            mkWorld (gets w) (S (translations w))
                    (trace w ++ [EvTranslate line])).

(* --------------------------------------------------------------------- *)
(** *** fetch_url *)

(** The [for attempt in range(1, retries + 1)] loop: [remaining] values of
    the range are left, the next one is [attempt].  Falling out of the loop
    is the function's implicit [return None].  Only a [RequestException]
    is caught: a [ValueError] of [requests.get] or of [time.sleep] leaves
    the function. *)
Fixpoint fetch_loop (url : str) (headers : Headers) (retries timeout : Z)
    (delay : Q) (remaining : nat) (attempt : Z) : M (option str) :=
  match remaining with
  | O => ret None
  | S k => fun w =>
      match requests_get url headers timeout w with
      | (Response status_code text, w1) =>
          if status_code =? 200 then (Ok (Some text), w1)
          else (Ok None, w1)
      | (RequestException, w1) =>
          if attempt =? retries then (Ok None, w1)
          else (time_sleep delay ;;
                fetch_loop url headers retries timeout delay k (attempt + 1)) w1
      | (GetValueError msg, w1) => (ValueError msg, w1)
      end
  end.

Definition fetch_url (url : str) (headers : Headers) (retries timeout : Z)
    (delay : Q) : M (option str) :=
  fetch_loop url headers retries timeout delay (Z.to_nat retries) 1.

(* --------------------------------------------------------------------- *)
(** *** get_chapter_links *)

(** The loop over [container.find_all("a")]. *)
Fixpoint collect_links (index_url : str) (anchors : list node) : list Chapter :=
  match anchors with
  | [] => []
  | a :: rest =>
      let href := tag_get (py "href") a in
      let title := get_text [] true a in
      match href with
      | Some h =>
          if negb (truthy h) || negb (truthy title)
          then collect_links index_url rest
          else mkChapter title (urljoin index_url h)
                 :: collect_links index_url rest
      | None => collect_links index_url rest
      end
  end.

Definition no_container_msg : str :=
  (py "Could not find #tbchapterlist " ++ [8211%N]
   ++ py " check the page structure")%list.

Definition get_chapter_links (index_url : str) (headers : Headers)
    (retries timeout : Z) (delay : Q) : M (list Chapter) :=
  html <- fetch_url index_url headers retries timeout delay ;;
  if negb (opt_truthy html) then raise (py "Failed to fetch index page")
  else
    let soup := BeautifulSoup (match html with Some h => h | None => [] end) in
    match find (has_id (py "tbchapterlist")) (soup_descendants soup) with
    | None => raise no_container_msg
    | Some container =>
        ret (collect_links index_url (find_all [py "a"] container))
    end.

(* --------------------------------------------------------------------- *)
(** *** extract_chapter_text *)

Definition extract_chapter_text (chapter_html : str) : Result str :=
  extract_from_soup (BeautifulSoup chapter_html).

(* --------------------------------------------------------------------- *)
(** *** translate_text *)

(** The [for idx, line in enumerate(lines, start=1)] loop; the value is the
    final [translated_lines]. *)
Fixpoint translate_lines (translator : Translator) (line_delay : Q)
    (lines : list str) : M (list str) :=
  match lines with
  | [] => ret []
  | line :: rest => fun w =>
      let (r, w1) := translator_translate translator line w in
      let en := match r with
                | Some en => en
                | None => line     (* fallback: keep original line *)
                end in
      (time_sleep line_delay ;;
       translated <- translate_lines translator line_delay rest ;;
       ret (en :: translated)) w1
  end.

Definition nonblank_lines (text : str) : list str :=
  filter (fun line => truthy (strip line)) (split_nl text).

Definition translate_text (text : str) (translator : option Translator)
    (enabled : bool) (line_delay : Q) : M str :=
  match enabled, translator with
  | true, Some t =>
      translated_lines <- translate_lines t line_delay (nonblank_lines text) ;;
      ret (join [newline] translated_lines)
  | _, _ => ret text
  end.

(* --------------------------------------------------------------------- *)
(** *** process_chapters *)

Section Orchestrator.

Variables (output_dir : str) (start_from : Z) (max_chapters : option Z)
          (translate : bool) (translator : option Translator)
          (request_delay : Q) (retries timeout : Z) (headers : Headers).

Definition past_window (idx : Z) : bool :=
  match max_chapters with
  | Some m => idx >=? start_from + m
  | None => false
  end.

(** The [for idx, chap in enumerate(chapter_links[start_from:], ...)] loop
    on the chapters still to visit. *)
Fixpoint chapters_loop (chaps : list Chapter) (idx : Z) : M unit :=
  match chaps with
  | [] => ret tt
  | chap :: rest =>
      if past_window idx then ret tt
      else
        emit (EvChapter idx (title chap) (url chap)) ;;
        html <- fetch_url (url chap) headers retries timeout request_delay ;;
        match html with
        | Some ((_ :: _) as html) =>
            match extract_chapter_text html with
            | RuntimeError _ => chapters_loop rest (idx + 1)
            | ValueError msg => raise_value_error msg
            | Ok zh_text =>
                let base_name :=
                  (format_04d (idx + 1) ++ underscore
                   ++ sanitize_filename (title chap))%list in
                if translate then
                  en_text <- translate_text zh_text translator true (1 # 2) ;;
                  emit (EvWrite (os_path_join output_dir
                                   (base_name ++ py "_en.txt")%list) en_text) ;;
                  time_sleep request_delay ;;
                  chapters_loop rest (idx + 1)
                else
                  emit (EvWrite (os_path_join output_dir
                                   (base_name ++ py ".txt")%list) zh_text) ;;
                  time_sleep request_delay ;;
                  chapters_loop rest (idx + 1)
            end
        | _ => chapters_loop rest (idx + 1)
        end
  end.

End Orchestrator.

Definition process_chapters (index_url output_dir : str) (start_from : Z)
    (max_chapters : option Z) (translate : bool) (src_lang dest_lang : str)
    (request_delay : Q) (retries timeout : Z) (user_agent : str) : M unit :=
  emit (EvMakedirs output_dir) ;;
  let headers := [(py "User-Agent", user_agent)] in
  let translator :=
    if translate then Some (GoogleTranslator src_lang dest_lang) else None in
  chapter_links <-
    get_chapter_links index_url headers retries timeout request_delay ;;
  let total := Z.of_nat (length chapter_links) in
  if start_from >=? total then ret tt
  else
    chapters_loop output_dir start_from max_chapters translate translator
      request_delay retries timeout headers
      (slice_from start_from chapter_links) start_from.

End Pipeline.

(* ===================================================================== *)
(** ** Vocabulary of the statements *)
(* ===================================================================== *)

Definition get_count (t : list Event) : nat := length (filter is_get t).

(** [k] failed attempts: a GET followed by a sleep, [k] times. *)
Fixpoint failed_attempts (url : str) (headers : Headers) (timeout : Z)
    (delay : Q) (k : nat) : list Event :=
  match k with
  | O => []
  | S k' => EvGet url headers timeout :: EvSleep delay
              :: failed_attempts url headers timeout delay k'
  end.

(** Events that are neither an artifact write nor a chapter banner. *)
Definition quiet (e : Event) : bool := negb (is_write e) && negb (is_chapter e).

(** An anchor with a non-empty href and non-empty visible text. *)
Definition well_formed_anchor (a : node) : bool :=
  opt_truthy (tag_get (py "href") a) && truthy (get_text [] true a).

(** The title/url pair of a well-formed anchor. *)
Definition chapter_of (urljoin : str -> str -> str) (index_url : str)
    (a : node) : Chapter :=
  mkChapter (get_text [] true a)
            (urljoin index_url
               (match tag_get (py "href") a with Some h => h | None => [] end)).

Definition nonblank (line : str) : bool := truthy (strip line).

Definition newline_free (line : str) : Prop := ~ In newline line.



(** [enumerate(l, start=idx)] *)
Fixpoint enumerate_from {A} (idx : Z) (l : list A) : list (Z * A) :=
  match l with
  | [] => []
  | x :: r => (idx, x) :: enumerate_from (idx + 1) r
  end.

(** Position [i] lies in [[start_from, start_from + max_chapters)]. *)
Definition in_window (start_from : Z) (max_chapters : option Z) (i : Z) : bool :=
  (start_from <=? i) &&
  match max_chapters with
  | Some m => i <? start_from + m
  | None => true
  end.

(** The chapters of the window, with their 0-based positions, in list
    order: the positions of the list itself clip the window to its length. *)
Definition window (links : list Chapter) (start_from : Z)
    (max_chapters : option Z) : list (Z * Chapter) :=
  filter (fun p => in_window start_from max_chapters (fst p))
         (enumerate_from 0 links).

Definition banner (p : Z * Chapter) : Event :=
  EvChapter (fst p) (title (snd p)) (url (snd p)).

(** What [get_chapter_links] returns, given what fetching the index page
    returned. *)
Definition links_of_fetch (BeautifulSoup : str -> list node)
    (urljoin : str -> str -> str) (index_url : str)
    (fetched : Result (option str)) : Result (list Chapter) :=
  match fetched with
  | Ok (Some ((_ :: _) as html)) =>
      match find (has_id (py "tbchapterlist"))
                 (soup_descendants (BeautifulSoup html)) with
      | Some container =>
          Ok (collect_links urljoin index_url (find_all [py "a"] container))
      | None => RuntimeError no_container_msg
      end
  | Ok _ => RuntimeError (py "Failed to fetch index page")
  | RuntimeError msg => RuntimeError msg
  | ValueError msg => ValueError msg
  end.

(** Membership in the invalid-character set of [sanitize_filename]. *)
Definition is_invalid (c : char) : bool := existsb (N.eqb c) invalid.

(** An invalid character becomes an underscore, any other one stays. *)
Definition scrub (c : char) : char := if is_invalid c then 95%N else c.

(* ===================================================================== *)
(** ** Further vocabulary *)
(* ===================================================================== *)

(** [n] attempts of one fetch: [n] GETs with a sleep between consecutive
    ones and none after the last. *)
Definition attempts (url : str) (headers : Headers) (timeout : Z)
    (delay : Q) (n : nat) : list Event :=
  match n with
  | O => []
  | S j => (failed_attempts url headers timeout delay j
            ++ [EvGet url headers timeout])%list
  end.

(** No whitespace at either end. *)
Definition trimmed (s : str) : Prop := lstrip s = s /\ lstrip (rev s) = rev s.


(** The [base_name] of the file of the chapter at position [idx]. *)
Definition base_name (idx : Z) (chapter_title : str) : str :=
  (format_04d (idx + 1) ++ underscore ++ sanitize_filename chapter_title)%list.

(** The [out_path] of the file of the chapter at position [idx]. *)
Definition out_path (os_path_join : str -> str -> str) (output_dir : str)
    (translate : bool) (idx : Z) (chapter_title : str) : str :=
  os_path_join output_dir
    (base_name idx chapter_title
     ++ (if translate then py "_en.txt" else py ".txt"))%list.

(** The paths of the files written along a trace. *)
Fixpoint written_paths (t : list Event) : list str :=
  match t with
  | [] => []
  | EvWrite path _ :: r => path :: written_paths r
  | _ :: r => written_paths r
  end.

(** The positions announced along a trace. *)
Fixpoint announced (t : list Event) : list Z :=
  match t with
  | [] => []
  | EvChapter idx _ _ :: r => idx :: announced r
  | _ :: r => announced r
  end.

(** What an untranslated run writes for the chapter at position [idx],
    given what fetching its page returned: one file when the page came
    back non-empty and its text could be extracted, nothing otherwise. *)
Definition chapter_artifacts (BeautifulSoup : str -> list node)
    (os_path_join : str -> str -> str) (output_dir : str) (idx : Z)
    (chap : Chapter) (fetched : Result (option str)) : list Event :=
  match fetched with
  | Ok (Some ((_ :: _) as html)) =>
      match extract_chapter_text BeautifulSoup html with
      | Ok zh_text =>
          [EvWrite (out_path os_path_join output_dir false idx (title chap))
                   zh_text]
      | _ => []
      end
  | _ => []
  end.



Section PerChapter.

Variable http : nat -> str -> Headers -> Z -> GetOutcome.
Variable backend : nat -> Translator -> str -> option str.
Variable BeautifulSoup : str -> list node.
Variable os_path_join : str -> str -> str.
Variables (output_dir : str) (translate : bool)
          (translator : option Translator)
          (request_delay : Q) (retries timeout : Z) (headers : Headers).

(** Processing one chapter, as the design words it: announce it, fetch its
    page, extract the text, translate it when translation is on, write the
    file and pause.  A page that cannot be fetched (or is empty) and a
    page without the content container end the processing of the chapter
    without a file and without an error. *)
Definition process_chapter (p : Z * Chapter) : M unit :=
  let idx := fst p in
  let chap := snd p in
  emit (EvChapter idx (title chap) (url chap)) ;;
  html <- fetch_url http (url chap) headers retries timeout request_delay ;;
  if negb (opt_truthy html) then ret tt
  else
    match extract_chapter_text BeautifulSoup
            (match html with Some h => h | None => [] end) with
    | RuntimeError _ => ret tt
    | ValueError msg => raise_value_error msg
    | Ok zh_text =>
        en_text <- (if translate
                    then translate_text backend zh_text translator true (1 # 2)
                    else ret zh_text) ;;
        emit (EvWrite (out_path os_path_join output_dir translate idx
                         (title chap)) en_text) ;;
        time_sleep request_delay
    end.

(** Processing the chapters of a list one after the other, in order; an
    exception ends the run. *)
Fixpoint process_all (l : list (Z * Chapter)) : M unit :=
  match l with
  | [] => ret tt
  | p :: r => process_chapter p ;; process_all r
  end.

End PerChapter.

(** A file name that does not start with a path separator, so that
    [os.path.join] appends it to the directory. *)
Definition relative_name (name : str) : bool :=
  match name with
  | c :: _ => negb ((c =? 47) || (c =? 92))%N
  | [] => true
  end.

(** [posixpath.join] on two components: an absolute second component
    replaces the first, otherwise it is appended, after a slash unless the
    first component is empty or already ends with one. *)
Definition starts_with_slash (p : str) : bool :=
  match p with
  | c :: _ => (c =? 47)%N
  | [] => false
  end.

Definition posix_join (a p : str) : str :=
  if starts_with_slash p then p
  else if negb (truthy a) || starts_with_slash (rev a) then (a ++ p)%list
  else (a ++ 47%N :: p)%list.

(** Reading a decimal numeral back: the value of a string of digits, and
    of an optionally signed one. *)
Definition digits_value (s : str) : N :=
  fold_left (fun acc c => 10 * acc + (c - 48))%N s 0%N.

Definition int_of_str (s : str) : Z :=
  match s with
  | c :: r => if (c =? 45)%N then - Z.of_N (digits_value r)
              else Z.of_N (digits_value s)
  | [] => 0
  end.

(** A page whose second paragraph is the site reminder followed by the
    site name. *)
Definition reminder_chapter_soup : list node :=
  [Tag (py "html") []
     [Tag (py "body") []
        [Tag (py "div")
           [(py "style", py "font-size: 20px; line-height: 30px;")]
           [Tag (py "p") [] [NavigableString (py "Hello")];
            Tag (py "p") []
              [NavigableString (reminder ++ py " site.example")%list];
            Tag (py "p") [] [NavigableString (py "World")]]]]].

(* ===================================================================== *)
(** ** Sample inputs used to exercise the theorems *)
(* ===================================================================== *)

(** A transport that fails twice and then serves a page. *)
Definition flaky_http (n : nat) (_ : str) (_ : Headers) (_ : Z) : GetOutcome :=
  match n with
  | 0%nat | 1%nat => RequestException
  | _ => Response 200 (py "<html>ok</html>")
  end.


Definition world0 : World := mkWorld 0 0 [].

Definition content_style : str := py "font-size: 20px; line-height: 30px;".

(** A small site.  The index lists three chapters among five anchors (one
    anchor has no href, one has no visible text); the first chapter is
    made of paragraphs, the second has no reading area, the third holds
    bare text cut by a line break. *)
Definition site_index_url : str := py "http://site/book/".
Definition broken_index_url : str := py "http://site/broken/".

Definition index_html : str :=
  py "<html><body><ul id='tbchapterlist'><li><a href='c1.html'>One</a></li><li><a>Soon</a></li><li><a href='c2.html'>Two</a></li><li><a href='x.html'> </a></li><li><a href='c3.html'>Three</a></li></ul></body></html>".

Definition broken_index_html : str :=
  py "<html><body><p>Moved.</p></body></html>".

Definition chapter1_html : str :=
  py "<html><body><div style='font-size: 20px; line-height: 30px;'><p>Hello</p><p>World</p></div></body></html>".

Definition chapter2_html : str :=
  py "<html><body><div>Not found</div></body></html>".

Definition chapter3_html : str :=
  py "<html><body><div style='font-size: 20px; line-height: 30px;'> Hello <br/>World</div></body></html>".

Definition empty_chapter_html : str :=
  py "<html><body><div style='font-size: 20px; line-height: 30px;'></div></body></html>".

Definition page (body : list node) : list node :=
  [Tag (py "html") [] [Tag (py "body") [] body]].

Definition anchor (attrs : list (str * str)) (text : str) : node :=
  Tag (py "li") [] [Tag (py "a") attrs [NavigableString text]].

Definition index_soup : list node :=
  page [Tag (py "ul") [(py "id", py "tbchapterlist")]
          [anchor [(py "href", py "c1.html")] (py "One");
           anchor [] (py "Soon");
           anchor [(py "href", py "c2.html")] (py "Two");
           anchor [(py "href", py "x.html")] (py " ");
           anchor [(py "href", py "c3.html")] (py "Three")]].

Definition broken_index_soup : list node :=
  page [Tag (py "p") [] [NavigableString (py "Moved.")]].

Definition chapter1_soup : list node :=
  page [Tag (py "div") [(py "style", content_style)]
          [Tag (py "p") [] [NavigableString (py "Hello")];
           Tag (py "p") [] [NavigableString (py "World")]]].

Definition chapter2_soup : list node :=
  page [Tag (py "div") [] [NavigableString (py "Not found")]].

Definition bare_text_soup : list node :=
  page [Tag (py "div") [(py "style", content_style)]
          [NavigableString (py " Hello ");
           Tag (py "br") [] [];
           NavigableString (py "World")]].

Definition empty_chapter_soup : list node :=
  page [Tag (py "div") [(py "style", content_style)] []].

(** The parser on the pages of the sample site. *)
Definition sample_soup (markup : str) : list node :=
  if eqb markup index_html then index_soup
  else if eqb markup broken_index_html then broken_index_soup
  else if eqb markup chapter1_html then chapter1_soup
  else if eqb markup chapter2_html then chapter2_soup
  else if eqb markup chapter3_html then bare_text_soup
  else if eqb markup empty_chapter_html then empty_chapter_soup
  else [].

Definition sample_page (url : str) : GetOutcome :=
  if eqb url site_index_url then Response 200 index_html
  else if eqb url broken_index_url then Response 200 broken_index_html
  else if eqb url (py "http://site/book/c1.html") then Response 200 chapter1_html
  else if eqb url (py "http://site/book/c2.html") then Response 200 chapter2_html
  else if eqb url (py "http://site/book/c3.html") then Response 200 chapter3_html
  else Response 404 [].

(** A transport that always gets through, and one whose very first request
    times out. *)
Definition steady_http (_ : nat) (url : str) (_ : Headers) (_ : Z)
  : GetOutcome := sample_page url.

Definition hiccup_http (n : nat) (url : str) (_ : Headers) (_ : Z)
  : GetOutcome :=
  match n with
  | O => RequestException
  | S _ => sample_page url
  end.

(** Relative references of the sample site resolve below the index. *)
Definition sample_urljoin (base ref : str) : str := (base ++ ref)%list.

Definition sample_path_join (dir name : str) : str :=
  (dir ++ py "/" ++ name)%list.

(** A backend that shouts, and whose second request fails. *)
Definition sample_backend (n : nat) (_ : Translator) (line : str)
  : option str :=
  match n with
  | 1%nat => None
  | _ => Some (py "EN " ++ line)%list
  end.


(** Ten chapters, titled 0 to 9. *)
Definition ten_chapters : list Chapter :=
  map (fun i => mkChapter (digits (N.of_nat i))
                          (site_index_url ++ digits (N.of_nat i))%list)
      (seq 0 10).

Definition user_agent_headers (user_agent : str) : Headers :=
  [(py "User-Agent", user_agent)].


(* ===================================================================== *)
(* ===================================================================== *)
(** ** Sleeping *)
(* ===================================================================== *)

Lemma time_sleep_ok (seconds : Q) (w : World) :
  (0 <= seconds)%Q ->
  time_sleep seconds w
  = (Ok tt, mkWorld (gets w) (translations w) (trace w ++ [EvSleep seconds])).
Proof.
  intros H. unfold time_sleep.
  rewrite (proj2 (Qle_bool_iff 0 seconds) H). reflexivity.
Qed.

Lemma time_sleep_cases (seconds : Q) (w : World) :
  time_sleep seconds w
  = (Ok tt, mkWorld (gets w) (translations w) (trace w ++ [EvSleep seconds]))
  \/ exists msg, time_sleep seconds w = (ValueError msg, w).
Proof.
  unfold time_sleep. destruct (Qle_bool 0 seconds).
  - left. reflexivity.
  - right. eexists. reflexivity.
Qed.

(* ===================================================================== *)
(** ** Properties of fetch_url *)
(* ===================================================================== *)

Section FetchProperties.

Variable http : nat -> str -> Headers -> Z -> GetOutcome.
Variables (url : str) (headers : Headers) (retries timeout : Z) (delay : Q).

Let loop := fetch_loop http url headers retries timeout delay.


Lemma fetch_loop_get_bound (remaining : nat) :
  forall (attempt : Z) (w : World),
    (get_count (trace (snd (loop remaining attempt w)))
     <= get_count (trace w) + remaining)%nat.
Proof.
  unfold get_count.
  induction remaining as [|k IH]; intros attempt w.
  - cbn. lia.
  - unfold loop. cbn [fetch_loop]. unfold requests_get.
    destruct (http (gets w) url headers timeout) as [status text| |msg].
    + destruct (status =? 200); cbn [snd trace];
        rewrite filter_app, length_app; cbn; lia.
    + destruct (attempt =? retries).
      * cbn [snd trace]. rewrite filter_app, length_app; cbn; lia.
      * unfold bind.
        destruct (time_sleep_cases delay
                    (mkWorld (S (gets w)) (translations w)
                       (trace w ++ [EvGet url headers timeout])))
          as [E|[msg E]]; rewrite E.
        -- fold loop. etransitivity; [apply IH|].
           cbn [trace]. rewrite !filter_app, !length_app. cbn. lia.
        -- cbn [snd trace]. rewrite filter_app, length_app. cbn. lia.
    + cbn [snd trace]. rewrite filter_app, length_app. cbn. lia.
Qed.


(** Whatever happens, what a call leaves in the trace is a number of
    attempts, and nothing else in the world changes. *)
Lemma fetch_loop_shape (remaining : nat) :
  forall (attempt : Z) (w : World),
    attempt + Z.of_nat remaining = retries + 1 ->
    exists result n,
      (n <= remaining)%nat /\ (0 < remaining -> 0 < n)%nat
      /\ loop remaining attempt w
         = (result,
            mkWorld (gets w + n)%nat (translations w)
              (trace w ++ attempts url headers timeout delay n)).
Proof.
  induction remaining as [|k IH]; intros attempt w Hinv.
  - exists (Ok None), 0%nat. split; [lia|]. split; [lia|].
    cbn. rewrite Nat.add_0_r, app_nil_r. destruct w; reflexivity.
  - unfold loop. cbn [fetch_loop]. unfold requests_get.
    assert (Hone : forall result : Result (option str),
      exists (r : Result (option str)) (n : nat),
        (n <= S k)%nat /\ (0 < S k -> 0 < n)%nat
        /\ (result,
            mkWorld (S (gets w)) (translations w)
              (trace w ++ [EvGet url headers timeout]))
           = (r,
              mkWorld (gets w + n)%nat (translations w)
                (trace w ++ attempts url headers timeout delay n))).
    { intros result. exists result, 1%nat. split; [lia|]. split; [lia|].
      cbn. rewrite Nat.add_1_r. reflexivity. }
    destruct (http (gets w) url headers timeout) as [status text| |msg].
    + destruct (status =? 200); apply Hone.
    + destruct (Z.eqb_spec attempt retries) as [_|Hneq]; [apply Hone|].
      unfold bind.
      destruct (time_sleep_cases delay
                  (mkWorld (S (gets w)) (translations w)
                     (trace w ++ [EvGet url headers timeout])))
        as [E|[msg E]]; rewrite E; [|apply Hone].
      cbn [gets translations trace]. fold loop.
      destruct (IH (attempt + 1)
                   (mkWorld (S (gets w)) (translations w)
                      ((trace w ++ [EvGet url headers timeout])
                       ++ [EvSleep delay])) ltac:(lia))
        as (result & n & Hle & Hpos & E').
      rewrite E'. cbn [gets translations trace].
      destruct n as [|j]; [lia|].
      exists result, (S (S j)). split; [lia|]. split; [lia|].
      f_equal. f_equal; [lia|].
      cbn [attempts failed_attempts]. rewrite <- !app_assoc. reflexivity.
    + apply Hone.
Qed.



End FetchProperties.

Lemma fetch_url_shape
    (http : nat -> str -> Headers -> Z -> GetOutcome)
    (page_url : str) (headers : Headers) (retries timeout : Z) (delay : Q)
    (w : World) :
  exists result n,
    (n <= Z.to_nat retries)%nat
    /\ fetch_url http page_url headers retries timeout delay w
       = (result,
          mkWorld (gets w + n)%nat (translations w)
            (trace w ++ attempts page_url headers timeout delay n)).
Proof.
  unfold fetch_url.
  destruct (Z.le_gt_cases retries 0) as [Hle|Hgt].
  - exists (Ok None), 0%nat. split; [lia|].
    replace (Z.to_nat retries) with 0%nat by lia.
    cbn. rewrite Nat.add_0_r, app_nil_r. destruct w; reflexivity.
  - destruct (fetch_loop_shape http page_url headers retries timeout delay
                (Z.to_nat retries) 1 w ltac:(lia))
      as (result & n & Hle & _ & E).
    exists result, n. split; [exact Hle|exact E].
Qed.






(** C10. A call to [fetch_url] with [retries <= 0] performs no GET at all
    (the world is left untouched) and returns [None]; and for every value
    of [retries] the call performs at most [max(retries, 0)] GETs. *)
Theorem fetch_url_attempt_bound
    (http : nat -> str -> Headers -> Z -> GetOutcome)
    (url : str) (headers : Headers) (retries timeout : Z) (delay : Q)
    (w : World) :
  (retries <= 0 ->
   fetch_url http url headers retries timeout delay w = (Ok None, w))
  /\ (get_count (trace (snd (fetch_url http url headers retries timeout
                               delay w)))
      <= get_count (trace w) + Z.to_nat (Z.max retries 0))%nat.
Proof.
  split.
  - intros Hle. unfold fetch_url.
    replace (Z.to_nat retries) with 0%nat by lia. reflexivity.
  - unfold fetch_url.
    replace (Z.max retries 0) with (Z.of_nat (Z.to_nat retries)) by lia.
    rewrite Nat2Z.id. apply fetch_loop_get_bound.
Qed.

Lemma fetch_url_attempt_bound_witness :
  fetch_url flaky_http (py "http://example.org/") [] 0 15 3 world0
  = (Ok None, world0).
Proof.
  apply (proj1 (fetch_url_attempt_bound flaky_http (py "http://example.org/")
                  [] 0 15 3 world0)).
  lia.
Defined.






(* ===================================================================== *)
(** ** Properties of the string helpers *)
(* ===================================================================== *)

Lemma truthy_nonempty (s : str) : truthy s = true <-> s <> [].
Proof. destruct s; cbn; split; intros H; congruence. Qed.

Lemma lstrip_all_space (s : str) :
  Forall (fun c => isspace c = true) s -> lstrip s = [].
Proof.
  induction 1 as [|c r Hc _ IH]; [reflexivity|].
  cbn. rewrite Hc. exact IH.
Qed.

Lemma strip_all_space (s : str) :
  Forall (fun c => isspace c = true) s -> strip s = [].
Proof. intros H. unfold strip. rewrite lstrip_all_space by exact H. reflexivity. Qed.

Lemma lstrip_head (c : char) (r : str) :
  isspace c = false -> lstrip (c :: r) = c :: r.
Proof. intros H. cbn. rewrite H. reflexivity. Qed.

Lemma rev_repeat_same {A} (x : A) (n : nat) : rev (repeat x n) = repeat x n.
Proof.
  induction n as [|n IH]; [reflexivity|].
  cbn [repeat rev]. rewrite IH. symmetry. apply repeat_cons.
Qed.

Lemma strip_repeat (c : char) (n : nat) :
  isspace c = false -> strip (repeat c n) = repeat c n.
Proof.
  intros H. unfold strip, rstrip.
  assert (L : lstrip (repeat c n) = repeat c n).
  { destruct n; [reflexivity|]. apply lstrip_head, H. }
  rewrite L, rev_repeat_same, L. apply rev_repeat_same.
Qed.

Lemma nonblank_nonempty (line : str) : nonblank line = true -> line <> [].
Proof. intros H ->. discriminate H. Qed.

Lemma join_nonempty_lines (sep : str) (ls : list str) :
  Forall (fun l => l <> []) ls -> (join sep ls = [] <-> ls = []).
Proof.
  intros H. split; [|intros ->; reflexivity].
  destruct H as [|p ps Hp _]; [reflexivity|].
  intros E. exfalso. destruct p as [|c p]; [congruence|].
  destruct ps; discriminate E.
Qed.

(* ===================================================================== *)
(** ** Properties of sanitize_filename *)
(* ===================================================================== *)

Lemma replace_underscore_map (ch : char) (s : str) :
  replace ch underscore s = map (fun c => if (c =? ch)%N then 95%N else c) s.
Proof.
  unfold replace. induction s as [|c r IH]; [reflexivity|].
  cbn [flat_map map]. rewrite IH. destruct (c =? ch)%N; reflexivity.
Qed.

Ltac split_on_char c k :=
  destruct (N.eqb_spec c k) as [->|?];
  [first [reflexivity | congruence] | cbn beta iota].

Lemma scrub_chain (c : char) :
  fold_left (fun x ch => if (x =? ch)%N then 95%N else x) invalid c = scrub c.
Proof.
  unfold scrub, is_invalid, invalid. cbn [fold_left existsb].
  split_on_char c 92%N. split_on_char c 92%N.
  split_on_char c 47%N. split_on_char c 58%N.
  split_on_char c 42%N. split_on_char c 63%N. split_on_char c 34%N.
  split_on_char c 60%N. split_on_char c 62%N. split_on_char c 124%N.
  reflexivity.
Qed.

Lemma replace_all_invalid (chars : str) :
  forall name,
    fold_left (fun name ch => replace ch underscore name) chars name
    = map (fun c => fold_left (fun x ch => if (x =? ch)%N then 95%N else x)
                      chars c) name.
Proof.
  induction chars as [|ch chars IH]; intros name; cbn [fold_left].
  - symmetry. apply map_id.
  - rewrite IH, replace_underscore_map, map_map. reflexivity.
Qed.

Lemma sanitize_filename_unfold (name : str) :
  sanitize_filename name
  = if truthy (strip (map scrub name)) then strip (map scrub name)
    else py "chapter".
Proof.
  unfold sanitize_filename. rewrite replace_all_invalid.
  rewrite (map_ext _ scrub scrub_chain). reflexivity.
Qed.

Lemma space_not_invalid (c : char) : isspace c = true -> scrub c = c.
Proof.
  intros H. unfold scrub.
  destruct (is_invalid c) eqn:E; [|reflexivity].
  exfalso. unfold is_invalid, invalid in E. cbn [existsb] in E.
  repeat (apply orb_prop in E; destruct E as [E|E]);
    try (apply N.eqb_eq in E; subst c; discriminate H).
  discriminate E.
Qed.

Lemma scrub_invalid (c : char) : is_invalid c = true -> scrub c = 95%N.
Proof. intros H. unfold scrub. rewrite H. reflexivity. Qed.

(** C7 (as the code has it). [sanitize_filename] replaces every occurrence
    of each of the characters backslash, slash, colon, star, question mark,
    double quote, less-than, greater-than and vertical bar by an underscore,
    and trims the result: the title A/B:C becomes A_B_C.  The fallback
    name chapter is the result for every title that is empty or made of
    whitespace only; a non-empty title made of invalid characters only
    becomes as many underscores. *)
Theorem sanitize_filename_spec :
  sanitize_filename (py "A/B:C") = py "A_B_C"
  /\ (forall name,
        sanitize_filename name
        = if truthy (strip (map scrub name)) then strip (map scrub name)
          else py "chapter")
  /\ (forall name,
        Forall (fun c => isspace c = true) name ->
        sanitize_filename name = py "chapter")
  /\ (forall name,
        name <> [] -> Forall (fun c => is_invalid c = true) name ->
        sanitize_filename name = repeat 95%N (length name)).
Proof.
  split; [reflexivity|]. split; [exact sanitize_filename_unfold|]. split.
  - intros name Hsp. rewrite sanitize_filename_unfold.
    assert (E : map scrub name = name).
    { induction Hsp as [|c r Hc _ IH]; [reflexivity|].
      cbn [map]. rewrite IH, (space_not_invalid c Hc). reflexivity. }
    rewrite E, (strip_all_space name Hsp). reflexivity.
  - intros name Hne Hinv. rewrite sanitize_filename_unfold.
    assert (E : map scrub name = repeat 95%N (length name)).
    { induction Hinv as [|c r Hc _ IH]; [reflexivity|].
      cbn [map length repeat]. rewrite (scrub_invalid c Hc).
      destruct r as [|c' r']; [reflexivity|].
      rewrite IH by discriminate. reflexivity. }
    rewrite E, strip_repeat by reflexivity.
    destruct name; [congruence|]. reflexivity.
Qed.

Lemma sanitize_filename_spec_witness :
  sanitize_filename (py "   ") = py "chapter"
  /\ sanitize_filename (py "/:*") = py "___".
Proof.
  destruct sanitize_filename_spec as (_ & _ & Hspace & Hinvalid).
  split.
  - apply Hspace. repeat constructor.
  - apply (Hinvalid (py "/:*")); [discriminate|repeat constructor].
Defined.

(** C7 as stated fails: the title made of the single invalid character
    slash sanitizes to an underscore, not to the fallback name. *)
Lemma sanitize_filename_all_invalid_not_fallback :
  Forall (fun c => is_invalid c = true) (py "/")
  /\ sanitize_filename (py "/") = py "_"
  /\ ~ (forall title,
          Forall (fun c => is_invalid c = true) title ->
          sanitize_filename title = py "chapter").
Proof.
  split; [repeat constructor|]. split; [reflexivity|].
  intros H. specialize (H (py "/") ltac:(repeat constructor)).
  discriminate H.
Qed.

(* ===================================================================== *)
(** ** Properties of extract_chapter_text *)
(* ===================================================================== *)

Lemma collect_paragraphs_nonempty (elems : list node) :
  Forall (fun line => line <> []) (collect_paragraphs elems).
Proof.
  induction elems as [|elem rest IH]; cbn [collect_paragraphs]; [constructor|].
  destruct (truthy (get_text [] true elem)) eqn:E; [|exact IH].
  constructor; [apply truthy_nonempty, E|exact IH].
Qed.

Lemma fallback_paragraphs_nonempty (content_div : node) :
  Forall (fun line => line <> []) (fallback_paragraphs content_div).
Proof.
  unfold fallback_paragraphs. apply Forall_forall. intros line Hin.
  apply filter_In in Hin. destruct Hin as [_ Hnb].
  apply nonblank_nonempty, Hnb.
Qed.

Lemma paragraphs_of_nonempty (content_div : node) :
  Forall (fun line => line <> []) (paragraphs_of content_div).
Proof.
  unfold paragraphs_of.
  destruct (primary_paragraphs content_div) as [|p ps] eqn:E.
  - apply fallback_paragraphs_nonempty.
  - rewrite <- E. apply collect_paragraphs_nonempty.
Qed.

Lemma clean_nonempty (paragraphs : list str) :
  Forall (fun line => line <> []) paragraphs ->
  Forall (fun line => line <> []) (clean paragraphs).
Proof.
  intros H. apply Forall_forall. intros line Hin.
  apply filter_In in Hin. destruct Hin as [Hin _].
  revert line Hin. apply Forall_forall, H.
Qed.

(** C4 (as the code has it). When [extract_chapter_text] succeeds, the
    content container was found and the returned text is the newline join
    of the container's lines that do not carry the site reminder.  Those
    lines are the primary paragraph/line-break texts, or, whenever primary
    extraction yields zero lines, the non-blank lines of the container's
    raw text split on newlines.  Every such line is non-empty, and the
    returned text is empty exactly when no line is left. *)
Theorem extract_chapter_text_lines
    (BeautifulSoup : str -> list node) (chapter_html text : str) :
  extract_chapter_text BeautifulSoup chapter_html = Ok text ->
  exists content_div,
    find is_content_div (soup_descendants (BeautifulSoup chapter_html))
    = Some content_div
    /\ text = join [newline] (clean (paragraphs_of content_div))
    /\ (primary_paragraphs content_div = [] ->
        paragraphs_of content_div
        = filter nonblank
            (split_nl (get_text [newline] true content_div)))
    /\ (primary_paragraphs content_div <> [] ->
        paragraphs_of content_div = primary_paragraphs content_div)
    /\ Forall (fun line => line <> []) (clean (paragraphs_of content_div))
    /\ (text = [] <-> clean (paragraphs_of content_div) = []).
Proof.
  unfold extract_chapter_text, extract_from_soup.
  destruct (find is_content_div (soup_descendants (BeautifulSoup chapter_html)))
    as [content_div|]; [|discriminate].
  intros E. injection E as <-. exists content_div.
  pose proof (clean_nonempty _ (paragraphs_of_nonempty content_div)) as Hne.
  repeat split.
  - unfold paragraphs_of. intros ->. reflexivity.
  - unfold paragraphs_of.
    destruct (primary_paragraphs content_div); [congruence|reflexivity].
  - exact Hne.
  - apply join_nonempty_lines, Hne.
  - intros ->. reflexivity.
Qed.

Lemma extract_chapter_text_lines_witness :
  exists content_div,
    find is_content_div (soup_descendants (sample_soup chapter3_html))
    = Some content_div
    /\ (py "Hello" ++ [newline] ++ py "World")%list
       = join [newline] (clean (paragraphs_of content_div))
    /\ (primary_paragraphs content_div = [] ->
        paragraphs_of content_div
        = filter nonblank
            (split_nl (get_text [newline] true content_div)))
    /\ (primary_paragraphs content_div <> [] ->
        paragraphs_of content_div = primary_paragraphs content_div)
    /\ Forall (fun line => line <> []) (clean (paragraphs_of content_div))
    /\ ((py "Hello" ++ [newline] ++ py "World")%list = [] <->
        clean (paragraphs_of content_div) = []).
Proof.
  apply (extract_chapter_text_lines sample_soup chapter3_html
           (py "Hello" ++ [newline] ++ py "World")%list).
  reflexivity.
Defined.

(** C4 as stated fails: on a page whose content container is present and
    empty, extraction succeeds (nothing is raised) and the returned text is
    the empty string; the fallback split finds no line either. *)
Lemma extract_chapter_text_empty_result :
  extract_chapter_text sample_soup empty_chapter_html = Ok []
  /\ ~ (forall (BeautifulSoup : str -> list node) (chapter_html text : str),
          extract_chapter_text BeautifulSoup chapter_html = Ok text ->
          text <> []).
Proof.
  split; [reflexivity|].
  intros H.
  apply (H sample_soup empty_chapter_html []); reflexivity.
Qed.

(* ===================================================================== *)
(** ** Properties of get_chapter_links *)
(* ===================================================================== *)

Lemma collect_links_filter_map (urljoin : str -> str -> str)
    (index_url : str) (anchors : list node) :
  collect_links urljoin index_url anchors
  = map (chapter_of urljoin index_url) (filter well_formed_anchor anchors).
Proof.
  induction anchors as [|a rest IH]; [reflexivity|].
  cbn [collect_links filter]. unfold well_formed_anchor at 1, opt_truthy.
  destruct (tag_get (py "href") a) as [h|] eqn:Hh; [|exact IH].
  destruct (truthy h); cbn [negb orb andb]; [|exact IH].
  destruct (truthy (get_text [] true a)); cbn [negb map]; [|exact IH].
  unfold chapter_of at 1. rewrite Hh, IH. reflexivity.
Qed.




(* ===================================================================== *)
(** ** More on trimming *)
(* ===================================================================== *)

Lemma lstrip_split (s : str) :
  exists pre, s = (pre ++ lstrip s)%list
              /\ Forall (fun c => isspace c = true) pre.
Proof.
  induction s as [|c r (pre & E & Hpre)].
  - exists []. split; [reflexivity|constructor].
  - cbn [lstrip]. destruct (isspace c) eqn:Hc.
    + exists (c :: pre). split; [cbn; f_equal; exact E|].
      constructor; assumption.
    + exists []. split; [reflexivity|constructor].
Qed.

Lemma lstrip_head_nonspace (s : str) (c : char) (r : str) :
  lstrip s = c :: r -> isspace c = false.
Proof.
  induction s as [|x s IH]; [discriminate|].
  cbn [lstrip]. destruct (isspace x) eqn:Hx; [exact IH|].
  intros E. injection E as <- _. exact Hx.
Qed.

Lemma lstrip_length (s : str) : (length (lstrip s) <= length s)%nat.
Proof.
  induction s as [|c r IH]; [reflexivity|].
  cbn [lstrip]. destruct (isspace c); cbn [length]; lia.
Qed.

Lemma lstrip_fixed_head (c : char) (r : str) :
  lstrip (c :: r) = c :: r -> isspace c = false.
Proof.
  cbn [lstrip]. destruct (isspace c); [|reflexivity].
  intros E. pose proof (lstrip_length r) as H. rewrite E in H.
  cbn [length] in H. lia.
Qed.

Lemma lstrip_In (c : char) (s : str) : In c (lstrip s) -> In c s.
Proof.
  destruct (lstrip_split s) as (pre & E & _). intros H.
  rewrite E. apply in_or_app. right. exact H.
Qed.

Lemma strip_In (c : char) (s : str) : In c (strip s) -> In c s.
Proof.
  unfold strip, rstrip. intros H.
  apply in_rev in H. apply lstrip_In in H. apply in_rev in H.
  apply lstrip_In, H.
Qed.

Lemma lstrip_idempotent (s : str) : lstrip (lstrip s) = lstrip s.
Proof.
  destruct (lstrip s) as [|c r] eqn:E; [reflexivity|].
  apply lstrip_head, (lstrip_head_nonspace s c r E).
Qed.

Lemma strip_trimmed (s : str) : trimmed (strip s).
Proof.
  unfold trimmed, strip, rstrip. split.
  - destruct (lstrip_split (rev (lstrip s))) as (pre & E & _).
    apply (f_equal (@rev char)) in E.
    rewrite rev_involutive, rev_app_distr in E.
    destruct (rev (lstrip (rev (lstrip s)))) as [|c u] eqn:Hu; [reflexivity|].
    apply lstrip_head. cbn [app] in E.
    apply (lstrip_head_nonspace s c (u ++ rev pre)%list E).
  - rewrite rev_involutive. apply lstrip_idempotent.
Qed.

Lemma trimmed_strip (s : str) : trimmed s -> strip s = s.
Proof.
  intros [Hl Hr]. unfold strip, rstrip. rewrite Hl, Hr. apply rev_involutive.
Qed.

Lemma trimmed_app (a b : str) :
  a <> [] -> b <> [] -> trimmed a -> trimmed b -> trimmed (a ++ b).
Proof.
  intros Ha Hb [Hla _] [_ Hrb]. split.
  - destruct a as [|c a']; [congruence|].
    cbn [app]. apply lstrip_head, (lstrip_fixed_head c a' Hla).
  - rewrite rev_app_distr.
    destruct (rev b) as [|c b'] eqn:E.
    + apply (f_equal (@rev char)) in E. rewrite rev_involutive in E.
      cbn in E. congruence.
    + cbn [app]. apply lstrip_head, (lstrip_fixed_head c b' Hrb).
Qed.

Lemma join_trimmed (parts : list str) :
  Forall (fun s => s <> [] /\ trimmed s) parts ->
  trimmed (join [] parts) /\ (parts <> [] -> join [] parts <> []).
Proof.
  induction 1 as [|p ps [Hp Htp] Hps [IHt IHn]].
  - split; [split; reflexivity|intros H; exfalso; apply H; reflexivity].
  - destruct ps as [|q qs].
    + split; [exact Htp|intros _; exact Hp].
    + change (join [] (p :: q :: qs)) with (p ++ join [] (q :: qs))%list.
      split.
      * apply trimmed_app; [exact Hp|apply IHn; discriminate|exact Htp|exact IHt].
      * intros _ E. apply app_eq_nil in E. tauto.
Qed.

Lemma all_strings_trimmed (ds : list node) :
  Forall (fun s => s <> [] /\ trimmed s) (all_strings_of true ds).
Proof.
  induction ds as [|d ds IH]; [constructor|].
  destruct d as [s| |]; cbn [all_strings_of]; try exact IH.
  destruct (truthy (strip s)) eqn:E; [|exact IH].
  constructor; [|exact IH].
  split; [apply truthy_nonempty, E|apply strip_trimmed].
Qed.

Lemma get_text_trimmed (n : node) : trimmed (get_text [] true n).
Proof. unfold get_text. apply join_trimmed, all_strings_trimmed. Qed.

(* ===================================================================== *)
(** ** More on sanitize_filename *)
(* ===================================================================== *)

Lemma scrub_valid (c : char) : is_invalid (scrub c) = false.
Proof.
  unfold scrub. destruct (is_invalid c) eqn:E; [reflexivity|exact E].
Qed.

Lemma scrub_fixed (s : str) :
  Forall (fun c => is_invalid c = false) s -> map scrub s = s.
Proof.
  induction 1 as [|c r Hc _ IH]; [reflexivity|].
  cbn [map]. rewrite IH. unfold scrub. rewrite Hc. reflexivity.
Qed.

Lemma strip_scrub_valid (name : str) :
  Forall (fun c => is_invalid c = false) (strip (map scrub name)).
Proof.
  apply Forall_forall. intros c Hin. apply strip_In in Hin.
  apply in_map_iff in Hin. destruct Hin as (x & <- & _). apply scrub_valid.
Qed.

Lemma sanitize_filename_facts (name : str) :
  sanitize_filename name <> []
  /\ Forall (fun c => is_invalid c = false) (sanitize_filename name)
  /\ trimmed (sanitize_filename name).
Proof.
  rewrite sanitize_filename_unfold.
  destruct (truthy (strip (map scrub name))) eqn:E.
  - split; [apply truthy_nonempty, E|].
    split; [apply strip_scrub_valid|apply strip_trimmed].
  - split; [discriminate|]. split; [repeat constructor|split; reflexivity].
Qed.

(** Whatever the title, the sanitized name is non-empty, holds none of the
    invalid characters, and neither starts nor ends with whitespace. *)
Theorem sanitize_filename_safe (name : str) :
  sanitize_filename name <> []
  /\ Forall (fun c => is_invalid c = false) (sanitize_filename name)
  /\ trimmed (sanitize_filename name).
Proof.
  rewrite sanitize_filename_unfold.
  destruct (truthy (strip (map scrub name))) eqn:E.
  - split; [apply truthy_nonempty, E|].
    split; [apply strip_scrub_valid|apply strip_trimmed].
  - split; [discriminate|]. split; [repeat constructor|split; reflexivity].
Qed.

(** Sanitizing a sanitized name changes nothing. *)
Theorem sanitize_filename_idempotent (name : str) :
  sanitize_filename (sanitize_filename name) = sanitize_filename name.
Proof.
  destruct (sanitize_filename_facts name) as (Hne & Hvalid & Htrim).
  rewrite (sanitize_filename_unfold (sanitize_filename name)).
  rewrite (scrub_fixed _ Hvalid), (trimmed_strip _ Htrim).
  destruct (sanitize_filename name); [congruence|reflexivity].
Qed.

(* ===================================================================== *)
(** ** More on extract_chapter_text *)
(* ===================================================================== *)

Lemma startswith_before_newline (sub : str) :
  newline_free sub ->
  forall a b, startswith (a ++ newline :: b) sub = true ->
              startswith a sub = true.
Proof.
  unfold newline_free. induction sub as [|p ps IH]; intros Hnl a b H.
  - destruct a; reflexivity.
  - destruct a as [|c a']; cbn [app startswith] in *.
    + apply andb_prop in H. destruct H as [H _]. apply N.eqb_eq in H.
      exfalso. apply Hnl. left. exact H.
    + apply andb_prop in H. destruct H as [Hc H]. rewrite Hc. cbn [andb].
      apply (IH (fun Hin => Hnl (or_intror Hin)) a' b H).
Qed.

Lemma contains_unfold (sub s : str) :
  contains sub s
  = startswith s sub || match s with [] => false | _ :: r => contains sub r end.
Proof. destruct s; reflexivity. Qed.

Lemma contains_across_newline (sub : str) :
  sub <> [] -> newline_free sub ->
  forall a b, contains sub (a ++ newline :: b) = true ->
              contains sub a = true \/ contains sub b = true.
Proof.
  intros Hne Hnl. induction a as [|c a' IH]; intros b H.
  - right. cbn [app] in H. rewrite contains_unfold in H.
    apply orb_prop in H. destruct H as [H|H]; [|exact H].
    exfalso. destruct sub as [|p ps]; [congruence|].
    cbn [startswith] in H. apply andb_prop in H. destruct H as [H _].
    apply N.eqb_eq in H. apply Hnl. left. exact H.
  - cbn [app] in H. rewrite contains_unfold in H.
    apply orb_prop in H. destruct H as [H|H].
    + left. rewrite contains_unfold.
      rewrite (startswith_before_newline sub Hnl (c :: a') b H). reflexivity.
    + destruct (IH b H) as [Ha|Hb]; [left|right; exact Hb].
      rewrite contains_unfold, Ha. apply orb_true_r.
Qed.

Lemma contains_join (sub : str) (lines : list str) :
  sub <> [] -> newline_free sub ->
  contains sub (join [newline] lines) = true ->
  Exists (fun line => contains sub line = true) lines.
Proof.
  intros Hne Hnl. induction lines as [|p ps IH]; intros H.
  - exfalso. destruct sub as [|c r]; [congruence|discriminate H].
  - destruct ps as [|q qs].
    + left. exact H.
    + change (join [newline] (p :: q :: qs))
        with (p ++ newline :: join [newline] (q :: qs))%list in H.
      destruct (contains_across_newline sub Hne Hnl p _ H) as [Hp|Hq].
      * left. exact Hp.
      * right. apply IH, Hq.
Qed.

(** The text returned by [extract_chapter_text] never contains the site
    reminder: the lines that carry it are dropped, and joining the others
    with newlines cannot make it appear. *)
Theorem extract_chapter_text_no_reminder
    (BeautifulSoup : str -> list node) (chapter_html text : str) :
  extract_chapter_text BeautifulSoup chapter_html = Ok text ->
  contains reminder text = false.
Proof.
  unfold extract_chapter_text, extract_from_soup.
  destruct (find is_content_div (soup_descendants (BeautifulSoup chapter_html)))
    as [content_div|]; [|discriminate].
  intros E. injection E as <-.
  destruct (contains reminder
              (join [newline] (clean (paragraphs_of content_div)))) eqn:C;
    [|reflexivity].
  exfalso. apply contains_join in C.
  - apply Exists_exists in C. destruct C as (line & Hin & Hc).
    unfold clean in Hin. apply filter_In in Hin. destruct Hin as [_ Hn].
    rewrite Hc in Hn. discriminate Hn.
  - discriminate.
  - unfold newline_free, reminder. cbn.
    intros H; repeat destruct H as [H|H]; try discriminate H; exact H.
Qed.

Lemma extract_chapter_text_no_reminder_witness :
  contains reminder (py "Hello" ++ [newline] ++ py "World")%list = false.
Proof.
  apply (extract_chapter_text_no_reminder (fun _ => reminder_chapter_soup)
           (py "<html>...</html>")).
  reflexivity.
Defined.

(* ===================================================================== *)
(** ** File names *)
(* ===================================================================== *)

Lemma digits_value_acc (d : Decimal.uint) :
  forall acc : positive,
    fold_left (fun acc c => 10 * acc + (c - 48))%N
      (py (NilEmpty.string_of_uint d)) (Npos acc)
    = Npos (Pos.of_uint_acc d acc).
Proof.
  induction d; intros acc; cbn [NilEmpty.string_of_uint Pos.of_uint_acc];
    try reflexivity;
    change (py (String ?c ?s)) with (N_of_ascii c :: py s);
    cbn [fold_left]; rewrite <- IHd; f_equal;
    match goal with
    | |- context [N_of_ascii ?c] =>
        let v := eval vm_compute in (N_of_ascii c) in
        change (N_of_ascii c) with v
    end; lia.
Qed.

Lemma digits_value_uint (d : Decimal.uint) :
  digits_value (py (NilEmpty.string_of_uint d)) = N.of_uint d.
Proof.
  unfold digits_value.
  induction d; cbn [NilEmpty.string_of_uint]; try reflexivity;
    change (py (String ?c ?s)) with (N_of_ascii c :: py s);
    cbn [fold_left];
    match goal with
    | |- fold_left _ _ ?a = _ =>
        let v := eval vm_compute in a in change a with v
    end;
    first [exact IHd | apply digits_value_acc].
Qed.

Lemma digits_value_digits (n : N) : digits_value (digits n) = n.
Proof.
  unfold digits, NilZero.string_of_uint.
  rewrite <- (DecimalN.Unsigned.of_to n) at 2.
  destruct (N.to_uint n) eqn:E; try apply digits_value_uint.
  reflexivity.
Qed.

Lemma digits_value_zfill (width : nat) (d : str) :
  digits_value (zfill width d) = digits_value d.
Proof.
  unfold zfill, digits_value. rewrite fold_left_app.
  induction (width - length d)%nat as [|k IH]; [reflexivity|exact IH].
Qed.

Lemma uint_chars_are_digits (d : Decimal.uint) :
  Forall (fun c => 48 <= c <= 57)%N (py (NilEmpty.string_of_uint d)).
Proof.
  induction d; cbn [NilEmpty.string_of_uint]; [constructor|..];
    change (py (String ?c ?s)) with (N_of_ascii c :: py s);
    (constructor; [cbn; lia|assumption]).
Qed.

Lemma digits_are_digits (n : N) : Forall (fun c => 48 <= c <= 57)%N (digits n).
Proof.
  unfold digits, NilZero.string_of_uint.
  destruct (N.to_uint n); try apply uint_chars_are_digits.
  repeat constructor; cbn; lia.
Qed.

Lemma zfill_are_digits (width : nat) (d : str) :
  Forall (fun c => 48 <= c <= 57)%N d ->
  Forall (fun c => 48 <= c <= 57)%N (zfill width d).
Proof.
  intros H. unfold zfill. apply Forall_app. split; [|exact H].
  apply Forall_forall. intros c Hin. apply repeat_spec in Hin. subst c. lia.
Qed.

Lemma digits_nonempty (n : N) : digits n <> [].
Proof.
  unfold digits, NilZero.string_of_uint.
  destruct (N.to_uint n); cbn [NilEmpty.string_of_uint];
    try change (py (String ?c ?s)) with (N_of_ascii c :: py s);
    discriminate.
Qed.

Lemma format_04d_value (z : Z) : int_of_str (format_04d z) = z.
Proof.
  unfold format_04d. destruct (Z.ltb_spec z 0) as [Hneg|Hpos].
  - cbn [int_of_str]. change (45 =? 45)%N with true. cbn beta iota.
    rewrite digits_value_zfill, digits_value_digits. lia.
  - pose proof (zfill_are_digits 4 _ (digits_are_digits (Z.to_N z))) as Hd.
    pose proof (digits_value_zfill 4 (digits (Z.to_N z))) as Hv.
    rewrite digits_value_digits in Hv.
    destruct (zfill 4 (digits (Z.to_N z))) as [|c r] eqn:E.
    + exfalso. unfold zfill in E. apply app_eq_nil in E.
      apply (digits_nonempty (Z.to_N z)). tauto.
    + cbn [int_of_str]. inversion Hd as [|? ? Hc _]; subst.
      destruct (N.eqb_spec c 45) as [->|_]; [lia|].
      rewrite Hv. lia.
Qed.

Lemma format_04d_no_underscore (z : Z) : ~ In 95%N (format_04d z).
Proof.
  assert (H : forall d, Forall (fun c => 48 <= c <= 57)%N d -> ~ In 95%N d).
  { intros d Hd Hin. rewrite Forall_forall in Hd. specialize (Hd _ Hin). lia. }
  unfold format_04d. destruct (z <? 0).
  - intros [E|Hin]; [discriminate E|].
    revert Hin. apply H, zfill_are_digits, digits_are_digits.
  - apply H, zfill_are_digits, digits_are_digits.
Qed.

Lemma first_underscore_unique (a b x y : str) :
  ~ In 95%N a -> ~ In 95%N b ->
  (a ++ 95%N :: x = b ++ 95%N :: y)%list -> a = b.
Proof.
  revert b. induction a as [|c a IH]; intros b Ha Hb E.
  - destruct b as [|d b]; [reflexivity|].
    cbn in E. injection E as <- _. exfalso. apply Hb. left. reflexivity.
  - destruct b as [|d b].
    + cbn in E. injection E as -> _. exfalso. apply Ha. left. reflexivity.
    + cbn in E. injection E as <- E. f_equal.
      apply IH; [intros H; apply Ha; right; exact H
                |intros H; apply Hb; right; exact H|exact E].
Qed.

Lemma base_name_relative (idx : Z) (chapter_title suffix : str) :
  relative_name (base_name idx chapter_title ++ suffix) = true.
Proof.
  unfold base_name, format_04d. destruct (idx + 1 <? 0); [reflexivity|].
  pose proof (zfill_are_digits 4 _ (digits_are_digits (Z.to_N (idx + 1))))
    as Hd.
  destruct (zfill 4 (digits (Z.to_N (idx + 1)))) as [|c r] eqn:E.
  - exfalso. unfold zfill in E. apply app_eq_nil in E.
    apply (digits_nonempty (Z.to_N (idx + 1))). tauto.
  - inversion Hd as [|? ? Hc _]; subst. cbn [app relative_name].
    destruct (N.eqb_spec c 47); [lia|]. destruct (N.eqb_spec c 92); [lia|].
    reflexivity.
Qed.

Lemma base_name_position
    (idx1 idx2 : Z) (title1 title2 suffix1 suffix2 : str) :
  (base_name idx1 title1 ++ suffix1 = base_name idx2 title2 ++ suffix2)%list ->
  idx1 = idx2.
Proof.
  unfold base_name, underscore. intros E.
  rewrite <- !app_assoc in E. cbn [py app] in E.
  change (List.map N_of_ascii (list_ascii_of_string "_")) with [95%N] in E.
  cbn [app] in E.
  apply first_underscore_unique in E;
    [|apply format_04d_no_underscore|apply format_04d_no_underscore].
  apply (f_equal int_of_str) in E. rewrite !format_04d_value in E. lia.
Qed.

(** Two file names built for different positions differ, whatever the
    titles and the suffixes: the position can be read off the name. *)
Theorem base_name_determines_position
    (idx1 idx2 : Z) (title1 title2 suffix1 suffix2 : str) :
  (base_name idx1 title1 ++ suffix1 = base_name idx2 title2 ++ suffix2)%list ->
  idx1 = idx2.
Proof.
  unfold base_name, underscore. intros E.
  rewrite <- !app_assoc in E. cbn [py app] in E.
  change (List.map N_of_ascii (list_ascii_of_string "_")) with [95%N] in E.
  cbn [app] in E.
  apply first_underscore_unique in E;
    [|apply format_04d_no_underscore|apply format_04d_no_underscore].
  apply (f_equal int_of_str) in E. rewrite !format_04d_value in E. lia.
Qed.

Lemma base_name_determines_position_witness :
  (base_name 7 (py "One") ++ py ".txt")%list
  = (base_name (14 - 7) (py "One") ++ py ".txt")%list
  /\ 7 = 14 - 7.
Proof.
  split; [reflexivity|].
  apply (base_name_determines_position 7 (14 - 7) (py "One") (py "One")
           (py ".txt") (py ".txt")).
  reflexivity.
Defined.

(* ===================================================================== *)
(** ** Properties of translate_text *)
(* ===================================================================== *)










(* ===================================================================== *)
(** ** More on translate_text *)
(* ===================================================================== *)










(* ===================================================================== *)
(** ** Effects of the building blocks on the trace *)
(* ===================================================================== *)

Lemma quiet_no_write (delta : list Event) :
  forallb quiet delta = true -> filter is_write delta = [].
Proof.
  induction delta as [|e d IH]; [reflexivity|].
  cbn [forallb filter]. intros H. apply andb_prop in H. destruct H as [He Hd].
  unfold quiet in He. apply andb_prop in He. destruct He as [He _].
  destruct (is_write e); [discriminate He|]. exact (IH Hd).
Qed.

Lemma quiet_no_chapter (delta : list Event) :
  forallb quiet delta = true -> filter is_chapter delta = [].
Proof.
  induction delta as [|e d IH]; [reflexivity|].
  cbn [forallb filter]. intros H. apply andb_prop in H. destruct H as [He Hd].
  unfold quiet in He. apply andb_prop in He. destruct He as [_ He].
  destruct (is_chapter e); [discriminate He|]. exact (IH Hd).
Qed.

Lemma written_paths_app (a b : list Event) :
  written_paths (a ++ b) = (written_paths a ++ written_paths b)%list.
Proof.
  induction a as [|e a IH]; [reflexivity|].
  destruct e; cbn [app written_paths]; rewrite IH; reflexivity.
Qed.

Lemma announced_app (a b : list Event) :
  announced (a ++ b) = (announced a ++ announced b)%list.
Proof.
  induction a as [|e a IH]; [reflexivity|].
  destruct e; cbn [app announced]; rewrite IH; reflexivity.
Qed.

Lemma get_count_app (a b : list Event) :
  get_count (a ++ b) = (get_count a + get_count b)%nat.
Proof. unfold get_count. rewrite filter_app, length_app. reflexivity. Qed.

Lemma quiet_no_path (delta : list Event) :
  forallb quiet delta = true -> written_paths delta = [].
Proof.
  induction delta as [|e d IH]; [reflexivity|].
  cbn [forallb]. intros H. apply andb_prop in H. destruct H as [He Hd].
  destruct e; try discriminate He; cbn [written_paths]; exact (IH Hd).
Qed.

Lemma quiet_not_announced (delta : list Event) :
  forallb quiet delta = true -> announced delta = [].
Proof.
  induction delta as [|e d IH]; [reflexivity|].
  cbn [forallb]. intros H. apply andb_prop in H. destruct H as [He Hd].
  destruct e; try discriminate He; cbn [announced]; exact (IH Hd).
Qed.

Lemma failed_attempts_quiet page_url headers timeout delay (k : nat) :
  forallb quiet (failed_attempts page_url headers timeout delay k) = true
  /\ get_count (failed_attempts page_url headers timeout delay k) = k.
Proof.
  induction k as [|k [IHq IHc]]; [split; reflexivity|].
  split; [exact IHq|]. unfold get_count in *.
  cbn [failed_attempts filter is_get length]. rewrite IHc. reflexivity.
Qed.

Lemma attempts_quiet page_url headers timeout delay (n : nat) :
  forallb quiet (attempts page_url headers timeout delay n) = true
  /\ get_count (attempts page_url headers timeout delay n) = n.
Proof.
  destruct n as [|j]; [split; reflexivity|].
  destruct (failed_attempts_quiet page_url headers timeout delay j) as [Hq Hc].
  unfold attempts. split.
  - rewrite forallb_app, Hq. reflexivity.
  - rewrite get_count_app, Hc. cbn. lia.
Qed.

Lemma fetch_url_effect (http : nat -> str -> Headers -> Z -> GetOutcome)
    (page_url : str) (headers : Headers) (retries timeout : Z) (delay : Q)
    (w : World) :
  exists result g delta,
    fetch_url http page_url headers retries timeout delay w
    = (result, mkWorld g (translations w) (trace w ++ delta))
    /\ forallb quiet delta = true.
Proof.
  destruct (fetch_url_shape http page_url headers retries timeout delay w)
    as (result & n & _ & E).
  exists result, (gets w + n)%nat,
    (attempts page_url headers timeout delay n).
  split; [exact E|apply attempts_quiet].
Qed.

(** Whatever it returns, the translator leaves translation requests and
    sleeps in the trace, and nothing else. *)
Lemma translate_lines_effect
    (backend : nat -> Translator -> str -> option str)
    (translator : Translator) (line_delay : Q) (lines : list str) :
  forall w,
    exists result n delta,
      translate_lines backend translator line_delay lines w
      = (result, mkWorld (gets w) n (trace w ++ delta))
      /\ forallb quiet delta = true /\ get_count delta = 0%nat.
Proof.
  induction lines as [|l r IH]; intros w.
  - exists (Ok []), (translations w), []. rewrite app_nil_r.
    destruct w. repeat split; reflexivity.
  - cbn [translate_lines translator_translate]. unfold bind.
    destruct (time_sleep_cases line_delay
                (mkWorld (gets w) (S (translations w))
                   (trace w ++ [EvTranslate l])))
      as [E|[msg E]]; rewrite E.
    + destruct (IH (mkWorld (gets w) (S (translations w))
                      ((trace w ++ [EvTranslate l]) ++ [EvSleep line_delay])))
        as (result & n & delta & E' & Hq & Hc).
      cbn [gets translations trace] in *. rewrite E'.
      assert (Hd : forallb quiet (EvTranslate l :: EvSleep line_delay :: delta)
                   = true
                   /\ get_count (EvTranslate l :: EvSleep line_delay :: delta)
                      = 0%nat).
      { split; [exact Hq|exact Hc]. }
      destruct result as [translated|msg|msg];
        eexists; exists n, (EvTranslate l :: EvSleep line_delay :: delta);
        (split; [rewrite <- !app_assoc; reflexivity|exact Hd]).
    + eexists. exists (S (translations w)), [EvTranslate l].
      repeat split; reflexivity.
Qed.

Lemma translate_text_silent
    (backend : nat -> Translator -> str -> option str)
    (text : str) (translator : option Translator) (enabled : bool)
    (line_delay : Q) (w : World) :
  exists result n delta,
    translate_text backend text translator enabled line_delay w
    = (result, mkWorld (gets w) n (trace w ++ delta))
    /\ forallb quiet delta = true /\ get_count delta = 0%nat.
Proof.
  unfold translate_text.
  destruct enabled, translator as [t|];
    try (exists (Ok text), (translations w), []; rewrite app_nil_r;
         destruct w; repeat split; reflexivity).
  unfold bind.
  destruct (translate_lines_effect backend t line_delay (nonblank_lines text)
              w) as (result & n & delta & E & Hq & Hc).
  rewrite E.
  destruct result as [translated|msg|msg];
    eexists; exists n, delta; (split; [reflexivity|split; assumption]).
Qed.



Lemma get_chapter_links_effect
    (http : nat -> str -> Headers -> Z -> GetOutcome)
    (BeautifulSoup : str -> list node) (urljoin : str -> str -> str)
    (index_url : str) (headers : Headers) (retries timeout : Z) (delay : Q)
    (w : World) :
  exists n,
    (n <= Z.to_nat retries)%nat
    /\ get_chapter_links http BeautifulSoup urljoin index_url headers retries
         timeout delay w
       = (links_of_fetch BeautifulSoup urljoin index_url
            (fst (fetch_url http index_url headers retries timeout delay w)),
          mkWorld (gets w + n)%nat (translations w)
            (trace w ++ attempts index_url headers timeout delay n)).
Proof.
  destruct (fetch_url_shape http index_url headers retries timeout delay w)
    as (result & n & Hn & E).
  exists n. split; [exact Hn|].
  unfold get_chapter_links, bind. rewrite E. cbn [fst].
  destruct result as [[[|c html]|]|msg|msg]; try reflexivity.
  cbn [opt_truthy truthy negb links_of_fetch].
  destruct (find (has_id (py "tbchapterlist"))
              (soup_descendants (BeautifulSoup (c :: html))));
    reflexivity.
Qed.

(* ===================================================================== *)
(** ** Processing one chapter *)
(* ===================================================================== *)

Section ChapterProperties.

Variable http : nat -> str -> Headers -> Z -> GetOutcome.
Variable backend : nat -> Translator -> str -> option str.
Variable BeautifulSoup : str -> list node.
Variable os_path_join : str -> str -> str.
Variables (output_dir : str) (translate : bool)
          (translator : option Translator)
          (request_delay : Q) (retries timeout : Z) (headers : Headers).

Let step :=
  process_chapter http backend BeautifulSoup os_path_join output_dir translate
    translator request_delay retries timeout headers.

Ltac sleep_cases :=
  match goal with
  | |- context [time_sleep request_delay ?W] =>
      let Es := fresh "Es" in
      let msg := fresh "msg" in
      destruct (time_sleep_cases request_delay W) as [Es|[msg Es]];
      rewrite Es
  end.

(** However it ends, processing a chapter leaves in the trace the banner,
    at most [retries] GETs, at most one file, named after the position,
    and no other banner; without translation the file is the one
    [chapter_artifacts] tells. *)
Lemma process_chapter_effect (p : Z * Chapter) (w : World) :
  exists result w1 delta,
    step p w = (result, w1)
    /\ trace w1 = (trace w ++ banner p :: delta)%list
    /\ filter is_chapter delta = []
    /\ announced delta = []
    /\ (written_paths delta = []
        \/ written_paths delta
           = [out_path os_path_join output_dir translate (fst p)
                (title (snd p))])
    /\ (get_count delta <= Z.to_nat retries)%nat
    /\ (translate = false ->
        filter is_write delta
        = chapter_artifacts BeautifulSoup os_path_join output_dir (fst p)
            (snd p)
            (fst (fetch_url http (url (snd p)) headers retries timeout
                    request_delay (snd (emit (banner p) w))))).
Proof.
  destruct p as [idx chap]. unfold step, process_chapter, banner.
  cbn [fst snd]. unfold bind at 1. cbn [emit]. unfold bind at 1.
  unfold emit at 2. cbn [snd].
  destruct (fetch_url_shape http (url chap) headers retries timeout
              request_delay
              (mkWorld (gets w) (translations w)
                 (trace w ++ [EvChapter idx (title chap) (url chap)])))
    as (fetched & n & Hn & E).
  cbn [gets translations trace] in E. rewrite E. cbn [fst].
  destruct (attempts_quiet (url chap) headers timeout request_delay n)
    as [Hq Hc].
  set (d0 := attempts (url chap) headers timeout request_delay n) in *.
  pose proof (quiet_no_chapter d0 Hq) as Hq1.
  pose proof (quiet_not_announced d0 Hq) as Hq2.
  pose proof (quiet_no_path d0 Hq) as Hq3.
  pose proof (quiet_no_write d0 Hq) as Hq4.
  assert (Hstop : forall r : Result unit,
    exists result w1 delta,
      (r, mkWorld (gets w + n)%nat (translations w)
            ((trace w ++ [EvChapter idx (title chap) (url chap)]) ++ d0))
      = (result, w1)
      /\ trace w1
         = (trace w ++ EvChapter idx (title chap) (url chap) :: delta)%list
      /\ filter is_chapter delta = []
      /\ announced delta = []
      /\ (written_paths delta = []
          \/ written_paths delta
             = [out_path os_path_join output_dir translate idx (title chap)])
      /\ (get_count delta <= Z.to_nat retries)%nat
      /\ (translate = false -> filter is_write delta = [])).
  { intros r. exists r. eexists. exists d0. split; [reflexivity|].
    cbn [trace]. rewrite <- app_assoc.
    repeat split; auto. lia. }
  destruct fetched as [[[|c html]|]|msg|msg]; try apply Hstop.
  cbn [opt_truthy truthy negb chapter_artifacts].
  destruct (extract_chapter_text BeautifulSoup (c :: html))
    as [zh_text|msg|msg]; try apply Hstop.
  clear Hstop. destruct translate.
  - unfold bind at 1.
    destruct (translate_text_silent backend zh_text translator true (1 # 2)
                (mkWorld (gets w + n)%nat (translations w)
                   ((trace w ++ [EvChapter idx (title chap) (url chap)])
                    ++ d0)))
      as (translated & m & d1 & E1 & Hq' & Hc').
    cbn [gets translations trace] in E1. rewrite E1.
    pose proof (quiet_no_chapter d1 Hq') as Hp1.
    pose proof (quiet_not_announced d1 Hq') as Hp2.
    pose proof (quiet_no_path d1 Hq') as Hp3.
    destruct translated as [en_text|msg|msg].
    + unfold bind at 1. cbn [emit gets translations trace].
      sleep_cases.
      * eexists. eexists.
        exists (d0 ++ d1
                ++ [EvWrite (out_path os_path_join output_dir true idx
                               (title chap)) en_text;
                    EvSleep request_delay])%list.
        split; [reflexivity|]. cbn [trace].
        split; [rewrite <- !app_assoc; reflexivity|].
        rewrite !filter_app, !announced_app, !written_paths_app,
          !get_count_app, Hq1, Hq2, Hq3, Hp1, Hp2, Hp3, Hc, Hc'.
        repeat split; try reflexivity;
          [right; reflexivity|cbn; lia|discriminate].
      * eexists. eexists.
        exists (d0 ++ d1
                ++ [EvWrite (out_path os_path_join output_dir true idx
                               (title chap)) en_text])%list.
        split; [reflexivity|]. cbn [trace].
        split; [rewrite <- !app_assoc; reflexivity|].
        rewrite !filter_app, !announced_app, !written_paths_app,
          !get_count_app, Hq1, Hq2, Hq3, Hp1, Hp2, Hp3, Hc, Hc'.
        repeat split; try reflexivity;
          [right; reflexivity|cbn; lia|discriminate].
    + eexists. eexists. exists (d0 ++ d1)%list.
      split; [reflexivity|]. cbn [trace].
      split; [rewrite <- !app_assoc; reflexivity|].
      rewrite !filter_app, !announced_app, !written_paths_app,
        !get_count_app, Hq1, Hq2, Hq3, Hp1, Hp2, Hp3, Hc, Hc'.
      repeat split; try reflexivity; [left; reflexivity|lia|discriminate].
    + eexists. eexists. exists (d0 ++ d1)%list.
      split; [reflexivity|]. cbn [trace].
      split; [rewrite <- !app_assoc; reflexivity|].
      rewrite !filter_app, !announced_app, !written_paths_app,
        !get_count_app, Hq1, Hq2, Hq3, Hp1, Hp2, Hp3, Hc, Hc'.
      repeat split; try reflexivity; [left; reflexivity|lia|discriminate].
  - unfold bind at 1. unfold ret at 1.
    unfold bind at 1. cbn [emit gets translations trace].
    sleep_cases.
    + eexists. eexists.
      exists (d0 ++ [EvWrite (out_path os_path_join output_dir false idx
                                (title chap)) zh_text;
                     EvSleep request_delay])%list.
      split; [reflexivity|]. cbn [trace].
      split; [rewrite <- !app_assoc; reflexivity|].
      rewrite !filter_app, !announced_app, !written_paths_app,
        !get_count_app, Hq1, Hq2, Hq3, Hq4, Hc.
      repeat split; try reflexivity; [right; reflexivity|cbn; lia].
    + eexists. eexists.
      exists (d0 ++ [EvWrite (out_path os_path_join output_dir false idx
                                (title chap)) zh_text])%list.
      split; [reflexivity|]. cbn [trace].
      split; [rewrite <- !app_assoc; reflexivity|].
      rewrite !filter_app, !announced_app, !written_paths_app,
        !get_count_app, Hq1, Hq2, Hq3, Hq4, Hc.
      repeat split; try reflexivity; [right; reflexivity|cbn; lia].
Qed.



End ChapterProperties.

(* ===================================================================== *)
(** ** Properties of the window *)
(* ===================================================================== *)

Lemma enumerate_from_lower_bound {A} (l : list A) :
  forall k, Forall (fun p => k <= fst p) (enumerate_from k l).
Proof.
  induction l as [|x r IH]; intros k; cbn [enumerate_from]; constructor.
  - cbn. lia.
  - eapply Forall_impl; [|apply IH]. cbn. intros p Hp. lia.
Qed.

Lemma past_window_filter_nil {A} (start_from : Z) (max_chapters : option Z)
    (l : list A) (k : Z) :
  past_window start_from max_chapters k = true ->
  filter (fun p => in_window start_from max_chapters (fst p))
         (enumerate_from k l) = [].
Proof.
  intros Hpw. pose proof (enumerate_from_lower_bound l k) as Hlow.
  induction Hlow as [|p ps Hp _ IH]; [reflexivity|].
  cbn [filter]. rewrite IH. unfold past_window in Hpw. unfold in_window.
  destruct max_chapters as [m|]; [|discriminate].
  destruct (Z.ltb_spec (fst p) (start_from + m)); [lia|].
  rewrite andb_false_r. reflexivity.
Qed.

Lemma in_window_open (start_from : Z) (max_chapters : option Z) (idx : Z) :
  start_from <= idx ->
  past_window start_from max_chapters idx = false ->
  in_window start_from max_chapters idx = true.
Proof.
  unfold in_window, past_window. intros Hle Hpw.
  destruct (Z.leb_spec start_from idx); [|lia].
  destruct max_chapters as [m|]; [|reflexivity].
  destruct (Z.ltb_spec idx (start_from + m)); [reflexivity|].
  destruct (Z.geb_spec idx (start_from + m)); [discriminate|lia].
Qed.







Example window_5_3_of_10 :
  map fst (window ten_chapters 5 (Some 3)) = [5; 6; 7]
  /\ window ten_chapters 10 (Some 3) = []
  /\ map fst (window ten_chapters 7 None) = [7; 8; 9].
Proof. repeat split; reflexivity. Qed.

(* ===================================================================== *)
(** ** The chapter loop processes the window *)
(* ===================================================================== *)

Section LoopRefinement.

Variable http : nat -> str -> Headers -> Z -> GetOutcome.
Variable backend : nat -> Translator -> str -> option str.
Variable BeautifulSoup : str -> list node.
Variable os_path_join : str -> str -> str.
Variables (output_dir : str) (start_from : Z) (max_chapters : option Z)
          (translate : bool) (translator : option Translator)
          (request_delay : Q) (retries timeout : Z) (headers : Headers).

(** One iteration of the loop inside the window is the processing of the
    chapter, followed by the remaining iterations unless it raised. *)
Lemma chapters_loop_iteration (chap : Chapter) (rest : list Chapter)
    (idx : Z) (w : World) :
  past_window start_from max_chapters idx = false ->
  chapters_loop http backend BeautifulSoup os_path_join output_dir start_from
    max_chapters translate translator request_delay retries timeout headers
    (chap :: rest) idx w
  = (process_chapter http backend BeautifulSoup os_path_join output_dir
       translate translator request_delay retries timeout headers (idx, chap) ;;
     chapters_loop http backend BeautifulSoup os_path_join output_dir
       start_from max_chapters translate translator request_delay retries
       timeout headers rest (idx + 1)) w.
Proof.
  intros Hpw. cbn [chapters_loop]. rewrite Hpw.
  unfold process_chapter, bind, ret, emit. cbn [fst snd].
  destruct (fetch_url http (url chap) headers retries timeout request_delay
              (mkWorld (gets w) (translations w)
                 (trace w ++ [EvChapter idx (title chap) (url chap)])))
    as [[[[|c html]|]|msg|msg] w1]; try reflexivity.
  cbn [opt_truthy truthy negb].
  destruct (extract_chapter_text BeautifulSoup (c :: html))
    as [zh_text|msg|msg]; try reflexivity.
  unfold out_path, base_name.
  destruct translate; [|reflexivity].
  destruct (translate_text backend zh_text translator true (1 # 2) w1)
    as [[en_text|msg|msg] w2]; reflexivity.
Qed.

(** The loop is the processing, in order, of the chapters of its list
    whose position lies in the window. *)
Lemma chapters_loop_process_all (chaps : list Chapter) :
  forall (idx : Z) (w : World),
    start_from <= idx ->
    chapters_loop http backend BeautifulSoup os_path_join output_dir
      start_from max_chapters translate translator request_delay retries
      timeout headers chaps idx w
    = process_all http backend BeautifulSoup os_path_join output_dir translate
        translator request_delay retries timeout headers
        (filter (fun p => in_window start_from max_chapters (fst p))
                (enumerate_from idx chaps)) w.
Proof.
  induction chaps as [|chap rest IH]; intros idx w Hidx; [reflexivity|].
  destruct (past_window start_from max_chapters idx) eqn:Hpw.
  - rewrite (past_window_filter_nil start_from max_chapters (chap :: rest)
               idx Hpw).
    cbn [chapters_loop]. rewrite Hpw. reflexivity.
  - rewrite (chapters_loop_iteration chap rest idx w Hpw).
    cbn [enumerate_from filter fst].
    rewrite (in_window_open start_from max_chapters idx Hidx Hpw).
    cbn [process_all]. unfold bind.
    destruct (process_chapter http backend BeautifulSoup os_path_join
                output_dir translate translator request_delay retries timeout
                headers (idx, chap) w) as [[[]|msg|msg] w1];
      try reflexivity.
    apply IH. lia.
Qed.

End LoopRefinement.

(* ===================================================================== *)
(** ** Processing a list of chapters *)
(* ===================================================================== *)

Section ProcessAllProperties.

Variable http : nat -> str -> Headers -> Z -> GetOutcome.
Variable backend : nat -> Translator -> str -> option str.
Variable BeautifulSoup : str -> list node.
Variable os_path_join : str -> str -> str.
Variables (output_dir : str) (translate : bool)
          (translator : option Translator)
          (request_delay : Q) (retries timeout : Z) (headers : Headers).

Let step :=
  process_chapter http backend BeautifulSoup os_path_join output_dir translate
    translator request_delay retries timeout headers.

Let run :=
  process_all http backend BeautifulSoup os_path_join output_dir translate
    translator request_delay retries timeout headers.

Lemma process_all_cons (p : Z * Chapter) (r : list (Z * Chapter))
    (w w1 : World) (result : Result unit) :
  step p w = (result, w1) ->
  run (p :: r) w
  = match result with
    | Ok _ => run r w1
    | RuntimeError msg => (RuntimeError msg, w1)
    | ValueError msg => (ValueError msg, w1)
    end.
Proof.
  intros E. unfold run, step in *. cbn [process_all]. unfold bind.
  rewrite E. destruct result; reflexivity.
Qed.

(** However it ends, the processing issues at most [retries] GETs per
    chapter it announces. *)
Lemma process_all_get_bound (l : list (Z * Chapter)) :
  forall (w : World),
    exists result w' delta,
      run l w = (result, w')
      /\ trace w' = (trace w ++ delta)%list
      /\ (get_count delta <= length (announced delta) * Z.to_nat retries)%nat.
Proof.
  induction l as [|p r IH]; intros w.
  - exists (Ok tt), w, []. rewrite app_nil_r. repeat split. cbn. lia.
  - destruct (process_chapter_effect http backend BeautifulSoup os_path_join
                output_dir translate translator request_delay retries timeout
                headers p w)
      as (result & w1 & d1 & Estep & Etrace & _ & Hann & _ & Hget & _).
    rewrite (process_all_cons p r w w1 result Estep).
    assert (Hstop : forall res : Result unit,
      exists result0 w' delta,
        (res, w1) = (result0, w')
        /\ trace w' = (trace w ++ delta)%list
        /\ (get_count delta
            <= length (announced delta) * Z.to_nat retries)%nat).
    { intros res. exists res, w1, (banner p :: d1).
      split; [reflexivity|]. split; [exact Etrace|].
      change (banner p :: d1) with ([banner p] ++ d1)%list.
      rewrite get_count_app, announced_app, Hann.
      cbn [banner get_count filter is_get announced length app Nat.add].
      lia. }
    destruct result as [[]|msg|msg]; try apply Hstop.
    destruct (IH w1) as (result & w' & d2 & Erun & Etrace' & Hbound).
    exists result, w', (banner p :: d1 ++ d2)%list.
    split; [exact Erun|].
    split; [rewrite Etrace', Etrace, <- app_assoc; reflexivity|].
    change (banner p :: d1 ++ d2)%list
      with ([banner p] ++ d1 ++ d2)%list.
    rewrite !get_count_app, !announced_app, Hann, !length_app.
    cbn [banner get_count filter is_get announced length app Nat.add].
    nia.
Qed.


(** Where [os.path.join] keeps different relative names apart, no two
    files of the processing share a path. *)
Hypothesis join_injective :
  forall a b,
    relative_name a = true -> relative_name b = true ->
    os_path_join output_dir a = os_path_join output_dir b -> a = b.

Lemma out_path_position (idx1 idx2 : Z) (title1 title2 : str) :
  out_path os_path_join output_dir translate idx1 title1
  = out_path os_path_join output_dir translate idx2 title2 ->
  idx1 = idx2.
Proof.
  unfold out_path. intros E.
  apply join_injective in E; try apply base_name_relative.
  exact (base_name_position _ _ _ _ _ _ E).
Qed.

Lemma process_all_distinct_paths (keep : Z * Chapter -> bool)
    (chaps : list Chapter) :
  forall (idx : Z) (w : World),
    exists result w' delta,
      run (filter keep (enumerate_from idx chaps)) w = (result, w')
      /\ trace w' = (trace w ++ delta)%list
      /\ NoDup (written_paths delta)
      /\ Forall (fun path =>
                   exists i chapter_title,
                     idx <= i
                     /\ path = out_path os_path_join output_dir translate i
                                 chapter_title)
                (written_paths delta).
Proof.
  induction chaps as [|chap rest IH]; intros idx w.
  - exists (Ok tt), w, []. rewrite app_nil_r. repeat split; constructor.
  - cbn [enumerate_from filter].
    assert (Hlater : forall delta,
      Forall (fun path =>
                exists i chapter_title,
                  idx + 1 <= i
                  /\ path = out_path os_path_join output_dir translate i
                              chapter_title)
             (written_paths delta) ->
      Forall (fun path =>
                exists i chapter_title,
                  idx <= i
                  /\ path = out_path os_path_join output_dir translate i
                              chapter_title)
             (written_paths delta)).
    { intros delta Hall. eapply Forall_impl; [|exact Hall].
      intros path (i & t & Hi & ->). exists i, t. split; [lia|reflexivity]. }
    destruct (keep (idx, chap)).
    + destruct (process_chapter_effect http backend BeautifulSoup
                  os_path_join output_dir translate translator request_delay
                  retries timeout headers (idx, chap) w)
        as (result & w1 & d1 & Estep & Etrace & _ & _ & Hpaths & _).
      cbn [fst snd] in Hpaths.
      rewrite (process_all_cons (idx, chap) _ w w1 result Estep).
      assert (Hone :
        NoDup (written_paths (banner (idx, chap) :: d1))
        /\ Forall (fun path =>
                     exists i chapter_title,
                       idx <= i
                       /\ path = out_path os_path_join output_dir translate i
                                   chapter_title)
                  (written_paths (banner (idx, chap) :: d1))).
      { cbn [banner written_paths]. destruct Hpaths as [-> | ->].
        - split; constructor.
        - split; [constructor; [intros []|constructor]|].
          constructor; [|constructor].
          exists idx, (title chap). split; [lia|reflexivity]. }
      destruct result as [[]|msg|msg];
        try (eexists; exists w1, (banner (idx, chap) :: d1);
             split; [reflexivity|]; split; [exact Etrace|exact Hone]).
      destruct (IH (idx + 1) w1)
        as (result & w' & d2 & Erun & Etrace' & Hnd & Hall).
      exists result, w', (banner (idx, chap) :: d1 ++ d2)%list.
      split; [exact Erun|].
      split; [rewrite Etrace', Etrace, <- app_assoc; reflexivity|].
      cbn [banner written_paths]. rewrite written_paths_app.
      destruct Hpaths as [-> | ->]; cbn [app].
      * split; [exact Hnd|apply Hlater, Hall].
      * split.
        -- constructor; [|exact Hnd].
           intros Hin. rewrite Forall_forall in Hall.
           destruct (Hall _ Hin) as (i & t & Hi & E).
           apply out_path_position in E. lia.
        -- constructor; [|apply Hlater, Hall].
           exists idx, (title chap). split; [lia|reflexivity].
    + destruct (IH (idx + 1) w)
        as (result & w' & d2 & Erun & Etrace' & Hnd & Hall).
      exists result, w', d2.
      split; [exact Erun|]. split; [exact Etrace'|].
      split; [exact Hnd|apply Hlater, Hall].
Qed.

End ProcessAllProperties.

(* --------------------------------------------------------------------- *)
(** *** Untranslated runs *)

Section StablePages.

Variable http : nat -> str -> Headers -> Z -> GetOutcome.
Variable backend : nat -> Translator -> str -> option str.
Variable BeautifulSoup : str -> list node.
Variable os_path_join : str -> str -> str.
Variables (output_dir : str) (translator : option Translator)
          (request_delay : Q) (retries timeout : Z) (headers : Headers).

(** What the site serves for each URL, whenever it is asked. *)
Variable page : str -> option str.

Hypothesis page_served :
  forall (page_url : str) (w : World),
    fst (fetch_url http page_url headers retries timeout request_delay w)
    = Ok (page page_url).

Hypothesis pause_accepted : (0 <= request_delay)%Q.


End StablePages.

Section Determinism.

Variables httpA httpB : nat -> str -> Headers -> Z -> GetOutcome.
Variables backendA backendB : nat -> Translator -> str -> option str.
Variable BeautifulSoup : str -> list node.
Variable os_path_join : str -> str -> str.
Variables (output_dir : str) (request_delay : Q) (retries timeout : Z)
          (headers : Headers).

(** Both transports deliver the same bodies: whatever the state of the
    world, fetching a URL ends the same way through either. *)
Hypothesis same_bodies :
  forall (page_url : str) (w1 w2 : World),
    fst (fetch_url httpA page_url headers retries timeout request_delay w1)
    = fst (fetch_url httpB page_url headers retries timeout request_delay w2).

Lemma process_chapter_same_result (p : Z * Chapter) (wA wB : World) :
  fst (process_chapter httpA backendA BeautifulSoup os_path_join output_dir
         false None request_delay retries timeout headers p wA)
  = fst (process_chapter httpB backendB BeautifulSoup os_path_join output_dir
           false None request_delay retries timeout headers p wB).
Proof.
  destruct p as [idx chap]. unfold process_chapter, bind, ret, emit.
  cbn [fst snd].
  pose proof (same_bodies (url chap)
                (mkWorld (gets wA) (translations wA)
                   (trace wA ++ [EvChapter idx (title chap) (url chap)]))
                (mkWorld (gets wB) (translations wB)
                   (trace wB ++ [EvChapter idx (title chap) (url chap)])))
    as Hsame.
  destruct (fetch_url httpA (url chap) headers retries timeout request_delay
              (mkWorld (gets wA) (translations wA)
                 (trace wA ++ [EvChapter idx (title chap) (url chap)])))
    as [fetchedA wA1].
  destruct (fetch_url httpB (url chap) headers retries timeout request_delay
              (mkWorld (gets wB) (translations wB)
                 (trace wB ++ [EvChapter idx (title chap) (url chap)])))
    as [fetchedB wB1].
  cbn [fst] in Hsame. subst fetchedB.
  destruct fetchedA as [[[|c html]|]|msg|msg]; try reflexivity.
  cbn [opt_truthy truthy negb].
  destruct (extract_chapter_text BeautifulSoup (c :: html))
    as [zh_text|msg|msg]; try reflexivity.
  unfold time_sleep, emit, raise_value_error.
  destruct (Qle_bool 0 request_delay); reflexivity.
Qed.

Lemma process_all_same_artifacts (l : list (Z * Chapter)) :
  forall (wA wB : World),
    exists result artifacts wA' wB',
      process_all httpA backendA BeautifulSoup os_path_join output_dir false
        None request_delay retries timeout headers l wA = (result, wA')
      /\ process_all httpB backendB BeautifulSoup os_path_join output_dir
           false None request_delay retries timeout headers l wB
         = (result, wB')
      /\ filter is_write (trace wA')
         = (filter is_write (trace wA) ++ artifacts)%list
      /\ filter is_write (trace wB')
         = (filter is_write (trace wB) ++ artifacts)%list.
Proof.
  induction l as [|p r IH]; intros wA wB.
  - exists (Ok tt), [], wA, wB. rewrite !app_nil_r. repeat split; reflexivity.
  - destruct (process_chapter_effect httpA backendA BeautifulSoup os_path_join
                output_dir false None request_delay retries timeout headers
                p wA)
      as (resA & wA1 & dA & EA & TA & _ & _ & _ & _ & WA).
    destruct (process_chapter_effect httpB backendB BeautifulSoup os_path_join
                output_dir false None request_delay retries timeout headers
                p wB)
      as (resB & wB1 & dB & EB & TB & _ & _ & _ & _ & WB).
    specialize (WA eq_refl). specialize (WB eq_refl).
    rewrite <- (same_bodies (url (snd p)) (snd (emit (banner p) wA))
                  (snd (emit (banner p) wB))) in WB.
    pose proof (process_chapter_same_result p wA wB) as Hres.
    rewrite EA, EB in Hres. cbn [fst] in Hres. subst resB.
    rewrite (process_all_cons httpA backendA BeautifulSoup os_path_join
               output_dir false None request_delay retries timeout headers
               p r wA wA1 resA EA).
    rewrite (process_all_cons httpB backendB BeautifulSoup os_path_join
               output_dir false None request_delay retries timeout headers
               p r wB wB1 resA EB).
    assert (FA : filter is_write (trace wA1)
                 = (filter is_write (trace wA) ++ filter is_write dA)%list).
    { rewrite TA, filter_app. reflexivity. }
    assert (FB : filter is_write (trace wB1)
                 = (filter is_write (trace wB) ++ filter is_write dA)%list).
    { rewrite TB, filter_app. cbn [banner filter is_write].
      rewrite WB, <- WA. reflexivity. }
    destruct resA as [[]|msg|msg];
      try (eexists; exists (filter is_write dA), wA1, wB1;
           split; [reflexivity|]; split; [reflexivity|];
           split; [exact FA|exact FB]).
    destruct (IH wA1 wB1) as (result & arts & wA' & wB' & RA & RB & GA & GB).
    exists result, (filter is_write dA ++ arts)%list, wA', wB'.
    split; [exact RA|]. split; [exact RB|].
    rewrite GA, GB, FA, FB, <- !app_assoc. split; reflexivity.
Qed.

End Determinism.

(* ===================================================================== *)
(** ** The run as a whole *)
(* ===================================================================== *)

(** A run creates the output directory, fetches the index page, and, when
    the links are found and [start_from] lies inside the list, processes
    the chapters of the slice whose position lies in the window. *)
Lemma process_chapters_unfold
    (http : nat -> str -> Headers -> Z -> GetOutcome)
    (backend : nat -> Translator -> str -> option str)
    (BeautifulSoup : str -> list node)
    (urljoin os_path_join : str -> str -> str)
    (index_url output_dir : str) (start_from : Z) (max_chapters : option Z)
    (translate : bool) (src_lang dest_lang : str) (request_delay : Q)
    (retries timeout : Z) (user_agent : str) (w : World) :
  exists n,
    (n <= Z.to_nat retries)%nat
    /\ process_chapters http backend BeautifulSoup urljoin os_path_join
         index_url output_dir start_from max_chapters translate src_lang
         dest_lang request_delay retries timeout user_agent w
       = let w1 :=
           mkWorld (gets w + n)%nat (translations w)
             ((trace w ++ [EvMakedirs output_dir])
              ++ attempts index_url (user_agent_headers user_agent) timeout
                   request_delay n) in
         match links_of_fetch BeautifulSoup urljoin index_url
                 (fst (fetch_url http index_url
                         (user_agent_headers user_agent) retries timeout
                         request_delay
                         (snd (emit (EvMakedirs output_dir) w)))) with
         | Ok links =>
             if start_from >=? Z.of_nat (length links) then (Ok tt, w1)
             else
               process_all http backend BeautifulSoup os_path_join output_dir
                 translate
                 (if translate
                  then Some (GoogleTranslator src_lang dest_lang) else None)
                 request_delay retries timeout
                 (user_agent_headers user_agent)
                 (filter (fun p => in_window start_from max_chapters (fst p))
                    (enumerate_from start_from
                       (slice_from start_from links))) w1
         | RuntimeError msg => (RuntimeError msg, w1)
         | ValueError msg => (ValueError msg, w1)
         end.
Proof.
  destruct (get_chapter_links_effect http BeautifulSoup urljoin index_url
              (user_agent_headers user_agent) retries timeout request_delay
              (snd (emit (EvMakedirs output_dir) w)))
    as (n & Hn & E).
  exists n. split; [exact Hn|].
  unfold process_chapters, bind at 1. cbn [emit]. unfold bind at 1.
  unfold emit in E. cbn [snd gets translations trace] in E.
  unfold user_agent_headers in *. rewrite E. unfold emit. cbn [snd].
  cbv zeta.
  destruct (links_of_fetch BeautifulSoup urljoin index_url _)
    as [links|msg|msg]; try reflexivity.
  destruct (start_from >=? Z.of_nat (length links)); [reflexivity|].
  apply chapters_loop_process_all. lia.
Qed.

(* ===================================================================== *)
(** ** Properties of process_chapters *)
(* ===================================================================== *)




(** A pause that [time.sleep] refuses ends the run with its [ValueError]
    right after the first file. *)
Example sample_run_negative_pause :
  process_chapters steady_http sample_backend sample_soup sample_urljoin
    sample_path_join site_index_url (py "out") 0 None false (py "zh-TW")
    (py "en") (-1) 3 15 (py "NovelScraper/1.0") world0
  = (ValueError (py "sleep length must be non-negative"),
     mkWorld 2 0
       [EvMakedirs (py "out");
        EvGet site_index_url (user_agent_headers (py "NovelScraper/1.0")) 15;
        EvChapter 0 (py "One") (py "http://site/book/c1.html");
        EvGet (py "http://site/book/c1.html")
          (user_agent_headers (py "NovelScraper/1.0")) 15;
        EvWrite (py "out/0001_One.txt")
          (py "Hello" ++ [newline] ++ py "World")%list]).
Proof. reflexivity. Qed.

(** C8. A missing chapter-list container on the index page makes
    [process_chapters] raise: the run ends right after the index fetch, no
    chapter is announced and nothing is written.  A missing content
    container on a chapter page is caught by the loop: nothing is written
    for that chapter and the loop goes on with the next chapter. *)
Theorem structure_error_scope
    (http : nat -> str -> Headers -> Z -> GetOutcome)
    (backend : nat -> Translator -> str -> option str)
    (BeautifulSoup : str -> list node)
    (urljoin os_path_join : str -> str -> str)
    (index_url output_dir : str) (start_from : Z) (max_chapters : option Z)
    (translate : bool) (src_lang dest_lang : str) (request_delay : Q)
    (retries timeout : Z) (user_agent : str) :
  (forall (w w1 : World) (html : str),
     fetch_url http index_url (user_agent_headers user_agent) retries timeout
       request_delay (snd (emit (EvMakedirs output_dir) w))
     = (Ok (Some html), w1) ->
     html <> [] ->
     find (has_id (py "tbchapterlist")) (soup_descendants (BeautifulSoup html))
     = None ->
     process_chapters http backend BeautifulSoup urljoin os_path_join index_url
       output_dir start_from max_chapters translate src_lang dest_lang
       request_delay retries timeout user_agent w
     = (RuntimeError no_container_msg, w1)
     /\ filter is_chapter (trace w1) = filter is_chapter (trace w)
     /\ filter is_write (trace w1) = filter is_write (trace w))
  /\
  (forall (translator : option Translator) (headers : Headers)
          (chap : Chapter) (rest : list Chapter) (idx : Z)
          (w w1 : World) (html msg : str),
     past_window start_from max_chapters idx = false ->
     fetch_url http (url chap) headers retries timeout request_delay
       (snd (emit (EvChapter idx (title chap) (url chap)) w))
     = (Ok (Some html), w1) ->
     html <> [] ->
     extract_chapter_text BeautifulSoup html = RuntimeError msg ->
     chapters_loop http backend BeautifulSoup os_path_join output_dir
       start_from max_chapters translate translator request_delay retries
       timeout headers (chap :: rest) idx w
     = chapters_loop http backend BeautifulSoup os_path_join output_dir
         start_from max_chapters translate translator request_delay retries
         timeout headers rest (idx + 1) w1
     /\ filter is_write (trace w1) = filter is_write (trace w)).
Proof.
  split.
  - intros w w1 html Hfetch Hne Hfind.
    destruct (fetch_url_effect http index_url (user_agent_headers user_agent)
                retries timeout request_delay
                (snd (emit (EvMakedirs output_dir) w)))
      as (result & g & delta & E & Hq).
    rewrite Hfetch in E. injection E as _ ->.
    unfold emit. cbn [snd gets translations trace].
    split; [|split].
    + unfold process_chapters, bind at 1. cbn [emit].
      unfold get_chapter_links, bind.
      unfold user_agent_headers, emit in Hfetch. cbn [snd] in Hfetch.
      rewrite Hfetch.
      destruct html as [|c html]; [congruence|].
      cbn [opt_truthy truthy negb]. rewrite Hfind. reflexivity.
    + rewrite !filter_app, (quiet_no_chapter delta Hq).
      cbn. rewrite !app_nil_r. reflexivity.
    + rewrite !filter_app, (quiet_no_write delta Hq).
      cbn. rewrite !app_nil_r. reflexivity.
  - intros translator headers chap rest idx w w1 html msg Hpw Hfetch Hne Hex.
    destruct (fetch_url_effect http (url chap) headers retries timeout
                request_delay
                (snd (emit (EvChapter idx (title chap) (url chap)) w)))
      as (result & g & delta & E & Hq).
    rewrite Hfetch in E. injection E as _ ->.
    unfold emit. cbn [snd gets translations trace].
    split.
    + cbn [chapters_loop]. rewrite Hpw. unfold bind at 1. cbn [emit].
      unfold bind at 1.
      unfold emit in Hfetch. cbn [snd] in Hfetch. rewrite Hfetch.
      destruct html as [|c html]; [congruence|].
      rewrite Hex. reflexivity.
    + rewrite !filter_app, (quiet_no_write delta Hq).
      cbn. rewrite !app_nil_r. reflexivity.
Qed.

Lemma structure_error_scope_witness :
  process_chapters steady_http sample_backend sample_soup sample_urljoin
    sample_path_join broken_index_url (py "out") 0 None false (py "zh-TW")
    (py "en") 3 3 15 (py "NovelScraper/1.0") world0
  = (RuntimeError no_container_msg,
     mkWorld 1 0 [EvMakedirs (py "out");
                  EvGet broken_index_url
                    (user_agent_headers (py "NovelScraper/1.0")) 15])
  /\
  chapters_loop steady_http sample_backend sample_soup sample_path_join
    (py "out") 0 None false None 3 3 15 []
    [mkChapter (py "Two") (py "http://site/book/c2.html");
     mkChapter (py "Three") (py "http://site/book/c3.html")] 1 world0
  = chapters_loop steady_http sample_backend sample_soup sample_path_join
      (py "out") 0 None false None 3 3 15 []
      [mkChapter (py "Three") (py "http://site/book/c3.html")] (1 + 1)
      (mkWorld 1 0 [EvChapter 1 (py "Two") (py "http://site/book/c2.html");
                    EvGet (py "http://site/book/c2.html") [] 15]).
Proof.
  destruct (structure_error_scope steady_http sample_backend sample_soup
              sample_urljoin sample_path_join broken_index_url (py "out") 0
              None false (py "zh-TW") (py "en") 3 3 15
              (py "NovelScraper/1.0")) as [Hindex Hchapter].
  split.
  - apply (Hindex world0 _ broken_index_html);
      [reflexivity|discriminate|reflexivity].
  - apply (Hchapter None [] (mkChapter (py "Two")
                               (py "http://site/book/c2.html"))
             [mkChapter (py "Three") (py "http://site/book/c3.html")] 1
             world0 _ chapter2_html
             (py "Could not find chapter text container. Structure may have changed."));
      [reflexivity|reflexivity|discriminate|reflexivity].
Defined.

Lemma index_fetch_silent (output_dir index_url : str) (headers : Headers)
    (timeout : Z) (delay : Q) (n : nat) (w : World) :
  filter is_write
    ((trace w ++ [EvMakedirs output_dir])
     ++ attempts index_url headers timeout delay n)
  = filter is_write (trace w).
Proof.
  rewrite !filter_app.
  rewrite (quiet_no_write _ (proj1 (attempts_quiet index_url headers timeout
                                      delay n))).
  cbn. rewrite !app_nil_r. reflexivity.
Qed.

(** C9. With translation disabled, two runs of [process_chapters] on the
    same index URL with the same options, through transports that deliver
    the same bodies, end the same way and write the same artifacts: the
    same paths with the same contents, in the same order, whatever else
    differs between the two runs (transport errors that were retried,
    requests counted so far, the translation backend). *)
Theorem process_chapters_untranslated_deterministic
    (httpA httpB : nat -> str -> Headers -> Z -> GetOutcome)
    (backendA backendB : nat -> Translator -> str -> option str)
    (BeautifulSoup : str -> list node)
    (urljoin os_path_join : str -> str -> str)
    (index_url output_dir : str) (start_from : Z) (max_chapters : option Z)
    (src_lang dest_lang : str) (request_delay : Q)
    (retries timeout : Z) (user_agent : str) (wA wB : World) :
  (forall (page_url : str) (w1 w2 : World),
     fst (fetch_url httpA page_url (user_agent_headers user_agent) retries
            timeout request_delay w1)
     = fst (fetch_url httpB page_url (user_agent_headers user_agent) retries
              timeout request_delay w2)) ->
  exists result artifacts wA' wB',
    process_chapters httpA backendA BeautifulSoup urljoin os_path_join index_url
      output_dir start_from max_chapters false src_lang dest_lang
      request_delay retries timeout user_agent wA = (result, wA')
    /\ process_chapters httpB backendB BeautifulSoup urljoin os_path_join index_url
         output_dir start_from max_chapters false src_lang dest_lang
         request_delay retries timeout user_agent wB = (result, wB')
    /\ filter is_write (trace wA')
       = (filter is_write (trace wA) ++ artifacts)%list
    /\ filter is_write (trace wB')
       = (filter is_write (trace wB) ++ artifacts)%list.
Proof.
  intros Hsame.
  destruct (process_chapters_unfold httpA backendA BeautifulSoup urljoin
              os_path_join index_url output_dir start_from max_chapters false
              src_lang dest_lang request_delay retries timeout user_agent wA)
    as (nA & _ & EA).
  destruct (process_chapters_unfold httpB backendB BeautifulSoup urljoin
              os_path_join index_url output_dir start_from max_chapters false
              src_lang dest_lang request_delay retries timeout user_agent wB)
    as (nB & _ & EB).
  rewrite <- (Hsame index_url (snd (emit (EvMakedirs output_dir) wA))
                (snd (emit (EvMakedirs output_dir) wB))) in EB.
  rewrite EA, EB. cbv zeta.
  pose proof (index_fetch_silent output_dir index_url
                (user_agent_headers user_agent) timeout request_delay nA wA)
    as FA.
  pose proof (index_fetch_silent output_dir index_url
                (user_agent_headers user_agent) timeout request_delay nB wB)
    as FB.
  destruct (links_of_fetch BeautifulSoup urljoin index_url
              (fst (fetch_url httpA index_url (user_agent_headers user_agent)
                      retries timeout request_delay
                      (snd (emit (EvMakedirs output_dir) wA)))))
    as [links|msg|msg].
  - destruct (start_from >=? Z.of_nat (length links)).
    + do 4 eexists. split; [reflexivity|]. split; [reflexivity|].
      cbn [trace]. rewrite FA, FB.
      split; symmetry; apply app_nil_r.
    + destruct (process_all_same_artifacts httpA httpB backendA backendB
                  BeautifulSoup os_path_join output_dir request_delay retries
                  timeout (user_agent_headers user_agent) Hsame
                  (filter (fun p => in_window start_from max_chapters (fst p))
                     (enumerate_from start_from
                        (slice_from start_from links)))
                  (mkWorld (gets wA + nA)%nat (translations wA)
                     ((trace wA ++ [EvMakedirs output_dir])
                      ++ attempts index_url (user_agent_headers user_agent)
                           timeout request_delay nA))
                  (mkWorld (gets wB + nB)%nat (translations wB)
                     ((trace wB ++ [EvMakedirs output_dir])
                      ++ attempts index_url (user_agent_headers user_agent)
                           timeout request_delay nB)))
        as (result & arts & wA' & wB' & RA & RB & WA & WB).
      exists result, arts, wA', wB'.
      split; [exact RA|]. split; [exact RB|].
      cbn [trace] in WA, WB. rewrite FA in WA. rewrite FB in WB.
      split; assumption.
  - do 4 eexists. split; [reflexivity|]. split; [reflexivity|].
    cbn [trace]. rewrite FA, FB.
    split; symmetry; apply app_nil_r.
  - do 4 eexists. split; [reflexivity|]. split; [reflexivity|].
    cbn [trace]. rewrite FA, FB.
    split; symmetry; apply app_nil_r.
Qed.

Lemma hiccup_same_bodies (page_url : str) (headers : Headers) (timeout : Z)
    (delay : Q) (w1 w2 : World) :
  (0 <= delay)%Q ->
  fst (fetch_url steady_http page_url headers 3 timeout delay w1)
  = fst (fetch_url hiccup_http page_url headers 3 timeout delay w2).
Proof.
  intros Hdelay. unfold fetch_url. change (Z.to_nat 3) with 3%nat.
  cbn [fetch_loop]. unfold requests_get, steady_http, hiccup_http, bind.
  generalize (sample_page page_url) as outcome. intros outcome.
  destruct (gets w2); destruct outcome as [status text| |msg];
    try destruct (status =? 200) eqn:Hstatus;
    repeat first
      [ rewrite (time_sleep_ok delay _ Hdelay)
      | rewrite Hstatus
      | progress cbn [gets translations trace Z.eqb Pos.eqb Z.add Pos.add
                      Pos.succ fst] ];
    reflexivity.
Qed.

Lemma process_chapters_untranslated_deterministic_witness :
  exists result artifacts wA' wB',
    process_chapters steady_http sample_backend sample_soup sample_urljoin
      sample_path_join site_index_url (py "out") 0 None false (py "zh-TW")
      (py "en") 3 3 15 (py "NovelScraper/1.0") world0 = (result, wA')
    /\ process_chapters hiccup_http (fun _ _ _ => None) sample_soup
         sample_urljoin sample_path_join site_index_url (py "out") 0 None false
         (py "zh-TW") (py "en") 3 3 15 (py "NovelScraper/1.0") world0
       = (result, wB')
    /\ filter is_write (trace wA') = artifacts
    /\ filter is_write (trace wB') = artifacts.
Proof.
  apply (process_chapters_untranslated_deterministic steady_http hiccup_http
           sample_backend (fun _ _ _ => None) sample_soup sample_urljoin
           sample_path_join site_index_url (py "out") 0 None (py "zh-TW") (py "en")
           3 3 15 (py "NovelScraper/1.0") world0 world0).
  intros page_url w1 w2. apply hiccup_same_bodies. unfold Qle. simpl. lia.
Defined.

Example sample_run_artifacts :
  filter is_write
    (trace (snd (process_chapters hiccup_http sample_backend sample_soup
                   sample_urljoin sample_path_join site_index_url (py "out") 0
                   None false (py "zh-TW") (py "en") 3 3 15
                   (py "NovelScraper/1.0") world0)))
  = [EvWrite (py "out/0001_One.txt")
       (py "Hello" ++ [newline] ++ py "World")%list;
     EvWrite (py "out/0003_Three.txt")
       (py "Hello" ++ [newline] ++ py "World")%list].
Proof. reflexivity. Qed.

(* ===================================================================== *)
(** ** More on get_chapter_links *)
(* ===================================================================== *)

(** Every chapter returned by [get_chapter_links] has a non-empty title
    without leading or trailing whitespace, and its url is [urljoin] of the
    index URL and a non-empty href. *)
Theorem get_chapter_links_titles
    (http : nat -> str -> Headers -> Z -> GetOutcome)
    (BeautifulSoup : str -> list node) (urljoin : str -> str -> str)
    (index_url : str) (headers : Headers) (retries timeout : Z) (delay : Q)
    (w w1 : World) (links : list Chapter) :
  get_chapter_links http BeautifulSoup urljoin index_url headers retries
    timeout delay w = (Ok links, w1) ->
  Forall (fun chap =>
            title chap <> [] /\ trimmed (title chap)
            /\ exists href, href <> [] /\ url chap = urljoin index_url href)
         links.
Proof.
  destruct (get_chapter_links_effect http BeautifulSoup urljoin index_url
              headers retries timeout delay w) as (n & _ & E).
  rewrite E. intros H. injection H as Hlinks _.
  unfold links_of_fetch in Hlinks.
  destruct (fst (fetch_url http index_url headers retries timeout delay w))
    as [[[|c html]|]|msg|msg]; try discriminate.
  destruct (find (has_id (py "tbchapterlist"))
              (soup_descendants (BeautifulSoup (c :: html))))
    as [container|]; [|discriminate].
  injection Hlinks as <-. rewrite collect_links_filter_map.
  apply Forall_forall. intros chap Hin.
  apply in_map_iff in Hin. destruct Hin as (a & <- & Ha).
  apply filter_In in Ha. destruct Ha as [_ Hwf].
  unfold well_formed_anchor in Hwf. apply andb_prop in Hwf.
  destruct Hwf as [Hhref Htitle]. unfold chapter_of. cbn [title url].
  split; [apply truthy_nonempty, Htitle|].
  split; [apply get_text_trimmed|].
  destruct (tag_get (py "href") a) as [h|]; [|discriminate].
  exists h. split; [apply truthy_nonempty, Hhref|reflexivity].
Qed.

Lemma get_chapter_links_titles_witness :
  Forall (fun chap =>
            title chap <> [] /\ trimmed (title chap)
            /\ exists href,
                 href <> [] /\ url chap = sample_urljoin site_index_url href)
    [mkChapter (py "One") (py "http://site/book/c1.html");
     mkChapter (py "Two") (py "http://site/book/c2.html");
     mkChapter (py "Three") (py "http://site/book/c3.html")].
Proof.
  apply (get_chapter_links_titles steady_http sample_soup sample_urljoin
           site_index_url (user_agent_headers (py "NovelScraper/1.0")) 3 15 3
           world0
           (mkWorld 1 0 [EvGet site_index_url
                           (user_agent_headers (py "NovelScraper/1.0")) 15])).
  reflexivity.
Defined.

Lemma get_chapter_links_no_page
    (http : nat -> str -> Headers -> Z -> GetOutcome)
    (BeautifulSoup : str -> list node) (urljoin : str -> str -> str)
    (index_url : str) (headers : Headers) (retries timeout : Z) (delay : Q)
    (w w1 : World) (body : option str) :
  fetch_url http index_url headers retries timeout delay w = (Ok body, w1) ->
  body = None \/ body = Some [] ->
  get_chapter_links http BeautifulSoup urljoin index_url headers retries
    timeout delay w
  = (RuntimeError (py "Failed to fetch index page"), w1).
Proof.
  intros Hfetch Hbody. unfold get_chapter_links, bind. rewrite Hfetch.
  destruct Hbody as [-> | ->]; reflexivity.
Qed.

(* ===================================================================== *)
(** ** More on process_chapters *)
(* ===================================================================== *)

(** A run issues at most [retries] GETs for the index page and at most
    [retries] GETs for each chapter it announces, however it ends. *)
Theorem process_chapters_get_bound
    (http : nat -> str -> Headers -> Z -> GetOutcome)
    (backend : nat -> Translator -> str -> option str)
    (BeautifulSoup : str -> list node)
    (urljoin os_path_join : str -> str -> str)
    (index_url output_dir : str) (start_from : Z) (max_chapters : option Z)
    (translate : bool) (src_lang dest_lang : str) (request_delay : Q)
    (retries timeout : Z) (user_agent : str) (w : World) :
  exists result w' delta,
    process_chapters http backend BeautifulSoup urljoin os_path_join index_url
      output_dir start_from max_chapters translate src_lang dest_lang
      request_delay retries timeout user_agent w = (result, w')
    /\ trace w' = (trace w ++ delta)%list
    /\ (get_count delta
        <= (1 + length (announced delta)) * Z.to_nat retries)%nat.
Proof.
  destruct (process_chapters_unfold http backend BeautifulSoup urljoin
              os_path_join index_url output_dir start_from max_chapters
              translate src_lang dest_lang request_delay retries timeout
              user_agent w) as (n & Hn & E).
  rewrite E. cbv zeta.
  destruct (attempts_quiet index_url (user_agent_headers user_agent) timeout
              request_delay n) as [Hq Hc].
  set (d0 := attempts index_url (user_agent_headers user_agent) timeout
               request_delay n) in *.
  assert (Hstop : forall (r : Result unit),
    exists result0 w' delta,
      (r, mkWorld (gets w + n)%nat (translations w)
            ((trace w ++ [EvMakedirs output_dir]) ++ d0))
      = (result0, w')
      /\ trace w' = (trace w ++ delta)%list
      /\ (get_count delta
          <= (1 + length (announced delta)) * Z.to_nat retries)%nat).
  { intros r. exists r. eexists. exists (EvMakedirs output_dir :: d0).
    split; [reflexivity|]. cbn [trace]. rewrite <- app_assoc.
    split; [reflexivity|].
    change (EvMakedirs output_dir :: d0) with ([EvMakedirs output_dir] ++ d0)%list.
    rewrite get_count_app, Hc. cbn [get_count filter is_get length Nat.add].
    nia. }
  destruct (links_of_fetch BeautifulSoup urljoin index_url _)
    as [links|msg|msg]; try apply Hstop.
  destruct (start_from >=? Z.of_nat (length links)); [apply Hstop|].
  clear Hstop.
  destruct (process_all_get_bound http backend BeautifulSoup os_path_join
              output_dir translate
              (if translate
               then Some (GoogleTranslator src_lang dest_lang) else None)
              request_delay retries timeout (user_agent_headers user_agent)
              (filter (fun p => in_window start_from max_chapters (fst p))
                 (enumerate_from start_from (slice_from start_from links)))
              (mkWorld (gets w + n)%nat (translations w)
                 ((trace w ++ [EvMakedirs output_dir]) ++ d0)))
    as (result & w' & d1 & Erun & Etrace & Hbound).
  exists result, w', (EvMakedirs output_dir :: d0 ++ d1)%list.
  split; [exact Erun|].
  cbn [trace] in Etrace. rewrite Etrace, <- !app_assoc.
  split; [reflexivity|].
  change (EvMakedirs output_dir :: d0 ++ d1)%list
    with ([EvMakedirs output_dir] ++ d0 ++ d1)%list.
  rewrite !get_count_app, !announced_app, Hc, !length_app,
    (quiet_not_announced d0 Hq).
  cbn [get_count filter is_get announced length Nat.add]. nia.
Qed.

(** Where [os.path.join] keeps different relative names apart (names that
    do not start with a path separator, which it appends to the directory),
    a run never writes two files to the same path: no chapter overwrites
    the file of another one. *)
Theorem process_chapters_distinct_paths
    (http : nat -> str -> Headers -> Z -> GetOutcome)
    (backend : nat -> Translator -> str -> option str)
    (BeautifulSoup : str -> list node)
    (urljoin os_path_join : str -> str -> str)
    (index_url output_dir : str) (start_from : Z) (max_chapters : option Z)
    (translate : bool) (src_lang dest_lang : str) (request_delay : Q)
    (retries timeout : Z) (user_agent : str) (w : World) :
  (forall a b,
     relative_name a = true -> relative_name b = true ->
     os_path_join output_dir a = os_path_join output_dir b -> a = b) ->
  exists result w' delta,
    process_chapters http backend BeautifulSoup urljoin os_path_join index_url
      output_dir start_from max_chapters translate src_lang dest_lang
      request_delay retries timeout user_agent w = (result, w')
    /\ trace w' = (trace w ++ delta)%list
    /\ NoDup (written_paths delta).
Proof.
  intros Hinj.
  destruct (process_chapters_unfold http backend BeautifulSoup urljoin
              os_path_join index_url output_dir start_from max_chapters
              translate src_lang dest_lang request_delay retries timeout
              user_agent w) as (n & Hn & E).
  rewrite E. cbv zeta.
  destruct (attempts_quiet index_url (user_agent_headers user_agent) timeout
              request_delay n) as [Hq _].
  set (d0 := attempts index_url (user_agent_headers user_agent) timeout
               request_delay n) in *.
  assert (Hstop : forall (r : Result unit),
    exists result0 w' delta,
      (r, mkWorld (gets w + n)%nat (translations w)
            ((trace w ++ [EvMakedirs output_dir]) ++ d0))
      = (result0, w')
      /\ trace w' = (trace w ++ delta)%list
      /\ NoDup (written_paths delta)).
  { intros r. exists r. eexists. exists (EvMakedirs output_dir :: d0).
    split; [reflexivity|]. cbn [trace]. rewrite <- app_assoc.
    split; [reflexivity|].
    cbn [written_paths]. rewrite (quiet_no_path d0 Hq). constructor. }
  destruct (links_of_fetch BeautifulSoup urljoin index_url _)
    as [links|msg|msg]; try apply Hstop.
  destruct (start_from >=? Z.of_nat (length links)); [apply Hstop|].
  clear Hstop.
  destruct (process_all_distinct_paths http backend BeautifulSoup
              os_path_join output_dir translate
              (if translate
               then Some (GoogleTranslator src_lang dest_lang) else None)
              request_delay retries timeout (user_agent_headers user_agent)
              Hinj (fun p => in_window start_from max_chapters (fst p))
              (slice_from start_from links) start_from
              (mkWorld (gets w + n)%nat (translations w)
                 ((trace w ++ [EvMakedirs output_dir]) ++ d0)))
    as (result & w' & d1 & Erun & Etrace & Hnd & _).
  exists result, w', (EvMakedirs output_dir :: d0 ++ d1)%list.
  split; [exact Erun|].
  cbn [trace] in Etrace. rewrite Etrace, <- !app_assoc.
  split; [reflexivity|].
  cbn [written_paths]. rewrite written_paths_app, (quiet_no_path d0 Hq).
  exact Hnd.
Qed.

Lemma posix_join_relative (dir : str) :
  exists prefix, forall name,
    relative_name name = true -> posix_join dir name = (prefix ++ name)%list.
Proof.
  assert (H : forall name,
             relative_name name = true -> starts_with_slash name = false).
  { intros [|c r]; [reflexivity|]. cbn. destruct (c =? 47)%N; [discriminate|].
    reflexivity. }
  unfold posix_join.
  destruct (negb (truthy dir) || starts_with_slash (rev dir)).
  - exists dir. intros name Hn. rewrite (H name Hn). reflexivity.
  - exists (dir ++ [47%N])%list. intros name Hn. rewrite (H name Hn).
    rewrite <- app_assoc. reflexivity.
Qed.

Lemma posix_join_injective (dir a b : str) :
  relative_name a = true -> relative_name b = true ->
  posix_join dir a = posix_join dir b -> a = b.
Proof.
  intros Ha Hb E. destruct (posix_join_relative dir) as (prefix & H).
  rewrite (H a Ha), (H b Hb) in E. apply app_inv_head in E. exact E.
Qed.

Lemma process_chapters_distinct_paths_witness :
  exists result w' delta,
    process_chapters steady_http sample_backend sample_soup sample_urljoin
      posix_join site_index_url (py "/tmp/out") 0 None true (py "zh-TW")
      (py "en") 3 3 15 (py "NovelScraper/1.0") world0 = (result, w')
    /\ trace w' = (trace world0 ++ delta)%list
    /\ NoDup (written_paths delta).
Proof.
  apply (process_chapters_distinct_paths steady_http sample_backend
           sample_soup sample_urljoin posix_join site_index_url
           (py "/tmp/out") 0 None true (py "zh-TW") (py "en") 3 3 15
           (py "NovelScraper/1.0") world0).
  apply posix_join_injective.
Defined.

(** A chapter whose page cannot be fetched, or comes back with an empty
    body, is skipped: the loop goes on with the next chapter from the very
    world the fetch left (no pause), and nothing is written for it. *)
Theorem chapters_loop_skips_failed_fetch
    (http : nat -> str -> Headers -> Z -> GetOutcome)
    (backend : nat -> Translator -> str -> option str)
    (BeautifulSoup : str -> list node) (os_path_join : str -> str -> str)
    (output_dir : str) (start_from : Z) (max_chapters : option Z)
    (translate : bool) (translator : option Translator)
    (request_delay : Q) (retries timeout : Z) (headers : Headers)
    (chap : Chapter) (rest : list Chapter) (idx : Z) (w w1 : World)
    (body : option str) :
  past_window start_from max_chapters idx = false ->
  fetch_url http (url chap) headers retries timeout request_delay
    (snd (emit (EvChapter idx (title chap) (url chap)) w)) = (Ok body, w1) ->
  body = None \/ body = Some [] ->
  chapters_loop http backend BeautifulSoup os_path_join output_dir start_from
    max_chapters translate translator request_delay retries timeout headers
    (chap :: rest) idx w
  = chapters_loop http backend BeautifulSoup os_path_join output_dir
      start_from max_chapters translate translator request_delay retries
      timeout headers rest (idx + 1) w1
  /\ written_paths (trace w1) = written_paths (trace w).
Proof.
  intros Hpw Hfetch Hbody.
  destruct (fetch_url_shape http (url chap) headers retries timeout
              request_delay
              (snd (emit (EvChapter idx (title chap) (url chap)) w)))
    as (result & n & _ & E).
  rewrite Hfetch in E. injection E as _ ->.
  split.
  - cbn [chapters_loop]. rewrite Hpw. unfold bind at 1. cbn [emit].
    unfold bind at 1. unfold emit in Hfetch. cbn [snd] in Hfetch.
    rewrite Hfetch. destruct Hbody as [-> | ->]; reflexivity.
  - unfold emit. cbn [snd gets translations trace].
    rewrite !written_paths_app.
    rewrite (quiet_no_path _ (proj1 (attempts_quiet _ _ _ _ n))).
    cbn [written_paths]. rewrite !app_nil_r. reflexivity.
Qed.

Lemma chapters_loop_skips_failed_fetch_witness :
  chapters_loop (fun _ _ _ _ => Response 200 []) sample_backend sample_soup
    posix_join (py "out") 0 None false None 3 3 15 []
    [mkChapter (py "One") (py "http://site/book/c1.html");
     mkChapter (py "Two") (py "http://site/book/c2.html")] 0 world0
  = chapters_loop (fun _ _ _ _ => Response 200 []) sample_backend sample_soup
      posix_join (py "out") 0 None false None 3 3 15 []
      [mkChapter (py "Two") (py "http://site/book/c2.html")] (0 + 1)
      (mkWorld 1 0 [EvChapter 0 (py "One") (py "http://site/book/c1.html");
                    EvGet (py "http://site/book/c1.html") [] 15]).
Proof.
  apply (chapters_loop_skips_failed_fetch (fun _ _ _ _ => Response 200 [])
           sample_backend sample_soup posix_join (py "out") 0 None false None
           3 3 15 [] (mkChapter (py "One") (py "http://site/book/c1.html"))
           [mkChapter (py "Two") (py "http://site/book/c2.html")] 0 world0 _
           (Some [])).
  - reflexivity.
  - reflexivity.
  - right. reflexivity.
Defined.








(** When the index page cannot be fetched, or comes back with an empty
    body, the run raises its fetch error right after the attempts on the
    index URL: the output directory has been created, no chapter is
    announced and nothing is written. *)
Theorem process_chapters_index_unreachable
    (http : nat -> str -> Headers -> Z -> GetOutcome)
    (backend : nat -> Translator -> str -> option str)
    (BeautifulSoup : str -> list node)
    (urljoin os_path_join : str -> str -> str)
    (index_url output_dir : str) (start_from : Z) (max_chapters : option Z)
    (translate : bool) (src_lang dest_lang : str) (request_delay : Q)
    (retries timeout : Z) (user_agent : str) (w : World) (body : option str) :
  fst (fetch_url http index_url (user_agent_headers user_agent) retries
         timeout request_delay (snd (emit (EvMakedirs output_dir) w)))
  = Ok body ->
  body = None \/ body = Some [] ->
  exists n,
    (n <= Z.to_nat retries)%nat
    /\ process_chapters http backend BeautifulSoup urljoin os_path_join
         index_url output_dir start_from max_chapters translate src_lang
         dest_lang request_delay retries timeout user_agent w
       = (RuntimeError (py "Failed to fetch index page"),
          mkWorld (gets w + n)%nat (translations w)
            (trace w ++ EvMakedirs output_dir
               :: attempts index_url (user_agent_headers user_agent) timeout
                    request_delay n)).
Proof.
  intros Hfetch Hbody.
  destruct (fetch_url_shape http index_url
              (user_agent_headers user_agent) retries timeout request_delay
              (snd (emit (EvMakedirs output_dir) w)))
    as (result & n & Hn & E).
  rewrite E in Hfetch. cbn [fst] in Hfetch. subst result.
  exists n. split; [exact Hn|].
  unfold process_chapters, bind at 1. cbn [emit]. unfold bind at 1.
  unfold emit, user_agent_headers in E. cbn [snd gets translations trace] in E.
  rewrite (get_chapter_links_no_page http BeautifulSoup urljoin
             index_url [(py "User-Agent", user_agent)] retries timeout
             request_delay _ _ body E Hbody).
  unfold user_agent_headers. rewrite <- app_assoc. reflexivity.
Qed.

Lemma process_chapters_index_unreachable_witness :
  exists n,
    (n <= 3)%nat
    /\ process_chapters (fun _ _ _ _ => RequestException) sample_backend
         sample_soup sample_urljoin posix_join site_index_url (py "out") 0
         None true (py "zh-TW") (py "en") 3 3 15 (py "NovelScraper/1.0")
         world0
       = (RuntimeError (py "Failed to fetch index page"),
          mkWorld (0 + n) 0
            ([] ++ EvMakedirs (py "out")
               :: attempts site_index_url
                    (user_agent_headers (py "NovelScraper/1.0")) 15 3 n)).
Proof.
  apply (process_chapters_index_unreachable (fun _ _ _ _ => RequestException)
           sample_backend sample_soup sample_urljoin posix_join
           site_index_url (py "out") 0 None true (py "zh-TW") (py "en") 3 3
           15 (py "NovelScraper/1.0") world0 None).
  - reflexivity.
  - left. reflexivity.
Defined.
